(** * callflow-pro: the Call and Campaign models

    A shallow embedding of the two Mongoose models of the backend
    (the Campaign schema and the Call schema with their hooks, virtuals
    and methods) and the properties of their derived-field computations.

    Conventions of the embedding.
    - A JavaScript Number is a value of [num]: a rational, one of the two
      infinities, or NaN.  Finite arithmetic is exact (binary64 rounding is
      not represented) and the sign of a zero is not tracked: dividing a
      non-zero finite number by zero gives the infinity with the sign of
      the numerator, and 0/0 gives NaN.
    - A Date is the number of milliseconds since the epoch, a [Z]; a path
      that holds no value ([undefined]) is [None].
    - A method that mutates [this] is a function from the document to the
      updated document (and the returned value, if any). *)

From Stdlib Require Import ZArith QArith Qcanon Qround List String Ascii Bool Lia Lqa.
Import ListNotations.

Local Open Scope Z_scope.

(** ** JavaScript numbers *)

Module JsNumber.

Inductive num : Type :=
| Fin (q : Qc)
| PInf
| NInf
| NaN.

Definition ofQ (q : Q) : num := Fin (Q2Qc q).
Definition ofZ (z : Z) : num := ofQ (inject_Z z).

Definition zero : num := ofZ 0.

Definition is_zero (q : Qc) : bool := Qeq_bool q 0%Q.

Definition inf_of (positive : bool) : num := if positive then PInf else NInf.

Definition neg (a : num) : num :=
  match a with
  | Fin x => Fin (- x)%Qc
  | PInf => NInf
  | NInf => PInf
  | NaN => NaN
  end.

Definition add (a b : num) : num :=
  match a, b with
  | NaN, _ | _, NaN => NaN
  | Fin x, Fin y => Fin (x + y)%Qc
  | PInf, NInf | NInf, PInf => NaN
  | PInf, _ | _, PInf => PInf
  | NInf, _ | _, NInf => NInf
  end.

Definition sub (a b : num) : num := add a (neg b).

(* an infinity of the given sign times [b] *)
Definition mul_inf (positive : bool) (b : num) : num :=
  match b with
  | NaN => NaN
  | PInf => inf_of positive
  | NInf => inf_of (negb positive)
  | Fin y =>
      match (0 ?= y)%Qc with
      | Eq => NaN
      | Lt => inf_of positive
      | Gt => inf_of (negb positive)
      end
  end.

Definition mul (a b : num) : num :=
  match a, b with
  | Fin x, Fin y => Fin (x * y)%Qc
  | PInf, _ => mul_inf true b
  | NInf, _ => mul_inf false b
  | _, PInf => mul_inf true a
  | _, NInf => mul_inf false a
  | NaN, _ | _, NaN => NaN
  end.

Definition div (a b : num) : num :=
  match a, b with
  | NaN, _ | _, NaN => NaN
  | Fin x, Fin y =>
      if is_zero y then
        match (0 ?= x)%Qc with
        | Eq => NaN
        | Lt => PInf
        | Gt => NInf
        end
      else Fin (x / y)%Qc
  | Fin _, PInf | Fin _, NInf => zero
  | PInf, PInf | PInf, NInf | NInf, PInf | NInf, NInf => NaN
  | PInf, Fin y => match (0 ?= y)%Qc with Gt => NInf | _ => PInf end
  | NInf, Fin y => match (0 ?= y)%Qc with Gt => PInf | _ => NInf end
  end.

(** The relational operators: every comparison with NaN is false. *)
Definition cmp (a b : num) : option comparison :=
  match a, b with
  | NaN, _ | _, NaN => None
  | Fin x, Fin y => Some (x ?= y)%Qc
  | PInf, PInf | NInf, NInf => Some Eq
  | PInf, _ | _, NInf => Some Gt
  | NInf, _ | _, PInf => Some Lt
  end.

Definition lt (a b : num) : bool :=
  match cmp a b with Some Lt => true | _ => false end.
Definition gt (a b : num) : bool :=
  match cmp a b with Some Gt => true | _ => false end.
Definition le (a b : num) : bool :=
  match cmp a b with Some Lt | Some Eq => true | _ => false end.
Definition ge (a b : num) : bool :=
  match cmp a b with Some Gt | Some Eq => true | _ => false end.

(** [Math.floor] and [Math.min]. *)
Definition floor (a : num) : num :=
  match a with
  | Fin x => ofZ (Qfloor x)
  | _ => a
  end.

(** [Math.ceil] *)
Definition ceil (a : num) : num :=
  match a with
  | Fin x => ofZ (Qceiling x)
  | _ => a
  end.

Definition min (a b : num) : num :=
  match cmp a b with
  | None => NaN
  | Some Gt => b
  | Some _ => a
  end.

(** ToBoolean on a Number: 0 and NaN are falsy. *)
Definition truthy (a : num) : bool :=
  match a with
  | Fin x => negb (is_zero x)
  | NaN => false
  | _ => true
  end.

(** ToNumber on a path that may be undefined: [undefined] converts to NaN,
    so that every comparison with it is false. *)
Definition toNumber (o : option num) : num :=
  match o with
  | Some n => n
  | None => NaN
  end.

(** ToBoolean on a path that holds a Number or is undefined. *)
Definition provided (o : option num) : bool :=
  match o with
  | Some n => truthy n
  | None => false
  end.

(** [x || 0] on such a path. *)
Definition orZero (o : option num) : num :=
  match o with
  | Some n => if truthy n then n else zero
  | None => zero
  end.

(** [a === b] on Numbers: NaN is not equal to itself. *)
Definition strictEq (a b : num) : bool :=
  match cmp a b with Some Eq => true | _ => false end.

(** Equality of two values of [num], decided. *)
Definition eqb (a b : num) : bool :=
  match a, b with
  | Fin x, Fin y => Qeq_bool x y
  | PInf, PInf | NInf, NInf | NaN, NaN => true
  | _, _ => false
  end.

Definition is_finite (a : num) : bool :=
  match a with Fin _ => true | _ => false end.

End JsNumber.

(** ** The Call model

    [callSchema]: the paths that the hooks and methods read or write.
    The remaining paths (identifiers, phone numbers, tracking data, tags)
    are touched by none of them and are left out. *)

Module Call.
Import JsNumber.

Inductive Status : Type :=
| initiated | ringing | answered | completed | failed | no_answer | busy.

Record Timing : Type := mkTiming {
  initiatedAt : option Z;
  ringingAt : option Z;
  answeredAt : option Z;
  endedAt : option Z;
  duration : num;      (* in seconds *)
  waitTime : num       (* time to answer in seconds *)
}.

Record Quality : Type := mkQuality {
  score : option num
}.

Record Cost : Type := mkCost {
  perMinute : num;
  total : num
}.

Record Revenue : Type := mkRevenue {
  amount : num
}.

Record LeadBudget : Type := mkLeadBudget {
  budgetMin : option num;      (* leadData.budget.min *)
  budgetMax : option num       (* leadData.budget.max *)
}.

Record LeadData : Type := mkLeadData {
  isQualified : bool;
  qualificationScore : option num;
  budget : option LeadBudget
}.

Record Call : Type := mkCall {
  status : Status;
  timing : Timing;
  quality : Quality;
  cost : Cost;
  revenue : Revenue;
  leadData : LeadData
}.

(** Assignments to single paths. *)
Definition set_status (s : Status) (this : Call) : Call :=
  mkCall s (timing this) (quality this) (cost this) (revenue this)
         (leadData this).

Definition set_timing (t : Timing) (this : Call) : Call :=
  mkCall (status this) t (quality this) (cost this) (revenue this)
         (leadData this).

Definition set_ringingAt (d : Z) (this : Call) : Call :=
  let t := timing this in
  set_timing (mkTiming (initiatedAt t) (Some d) (answeredAt t) (endedAt t)
                       (duration t) (waitTime t)) this.

Definition set_answeredAt (d : Z) (this : Call) : Call :=
  let t := timing this in
  set_timing (mkTiming (initiatedAt t) (ringingAt t) (Some d) (endedAt t)
                       (duration t) (waitTime t)) this.

Definition set_endedAt (d : Z) (this : Call) : Call :=
  let t := timing this in
  set_timing (mkTiming (initiatedAt t) (ringingAt t) (answeredAt t) (Some d)
                       (duration t) (waitTime t)) this.

Definition set_duration (n : num) (this : Call) : Call :=
  let t := timing this in
  set_timing (mkTiming (initiatedAt t) (ringingAt t) (answeredAt t) (endedAt t)
                       n (waitTime t)) this.

Definition set_waitTime (n : num) (this : Call) : Call :=
  let t := timing this in
  set_timing (mkTiming (initiatedAt t) (ringingAt t) (answeredAt t) (endedAt t)
                       (duration t) n) this.

Definition set_cost_total (n : num) (this : Call) : Call :=
  mkCall (status this) (timing this) (quality this)
         (mkCost (perMinute (cost this)) n) (revenue this) (leadData this).

Definition set_leadData (l : LeadData) (this : Call) : Call :=
  mkCall (status this) (timing this) (quality this) (cost this) (revenue this)
         l.

Definition set_qualificationScore (n : num) (this : Call) : Call :=
  let l := leadData this in
  set_leadData (mkLeadData (isQualified l) (Some n) (budget l)) this.

Definition set_isQualified (b : bool) (this : Call) : Call :=
  let l := leadData this in
  set_leadData (mkLeadData b (qualificationScore l) (budget l)) this.

(** The timing sub-document of a new call: [initiatedAt] defaults to the
    time of creation, [duration] and [waitTime] to 0. *)
Definition defaultTiming (now : Z) : Timing :=
  mkTiming (Some now) None None None zero zero.

(** [callSchema.pre('save', ...)]: derive duration, wait time and cost. *)
Definition pre_save (this : Call) : Call :=
  (* Calculate duration if call is completed *)
  let this :=
    match answeredAt (timing this), endedAt (timing this) with
    | Some a, Some e =>
        set_duration (floor (div (sub (ofZ e) (ofZ a)) (ofZ 1000))) this
    | _, _ => this
    end in
  (* Calculate wait time if call was answered *)
  let this :=
    match ringingAt (timing this), answeredAt (timing this) with
    | Some r, Some a =>
        set_waitTime (floor (div (sub (ofZ a) (ofZ r)) (ofZ 1000))) this
    | _, _ => this
    end in
  (* Calculate total cost based on duration *)
  if gt (duration (timing this)) zero && gt (perMinute (cost this)) zero
  then set_cost_total
         (mul (div (duration (timing this)) (ofZ 60)) (perMinute (cost this)))
         this
  else this.

(** [callSchema.methods.updateStatus(newStatus, timestamp)]; the default
    [new Date()] of [timestamp] is supplied by the caller here. *)
Definition updateStatus (newStatus : Status) (timestamp : Z) (this : Call)
  : Call :=
  let this := set_status newStatus this in
  match newStatus with
  | ringing => set_ringingAt timestamp this
  | answered => set_answeredAt timestamp this
  | completed | failed | no_answer | busy => set_endedAt timestamp this
  | initiated => this
  end.

(** [callSchema.methods.calculateQualificationScore()]: the updated document
    and the returned score. *)
Definition calculateQualificationScore (this : Call) : Call * num :=
  let quality_score := score (quality this) in   (* this.quality.score *)
  let score := zero in
  (* Duration-based scoring *)
  let score :=
    if ge (duration (timing this)) (ofZ 300) then add score (ofZ 25)
    else if ge (duration (timing this)) (ofZ 180) then add score (ofZ 15)
    else if ge (duration (timing this)) (ofZ 60) then add score (ofZ 10)
    else score in
  (* Quality-based scoring *)
  let score :=
    if ge (toNumber quality_score) (ofZ 4) then add score (ofZ 20)
    else if ge (toNumber quality_score) (ofZ 3) then add score (ofZ 10)
    else score in
  (* Revenue-based scoring *)
  let score :=
    if gt (amount (revenue this)) zero then add score (ofZ 30) else score in
  (* Budget indication *)
  let score :=
    if match budget (leadData this) with
       | Some b => gt (toNumber (budgetMin b)) (ofZ 1000)
       | None => false
       end
    then add score (ofZ 15) else score in
  let this := set_qualificationScore (min score (ofZ 100)) this in
  let this := set_isQualified (ge score (ofZ 70)) this in
  (this, score).

(** *** The scoring rules, as the specification words them

    The points of each rule, and their sum. *)

Definition durationPoints (d : num) : Z :=
  if ge d (ofZ 300) then 25
  else if ge d (ofZ 180) then 15
  else if ge d (ofZ 60) then 10
  else 0.

Definition qualityPoints (q : option num) : Z :=
  if ge (toNumber q) (ofZ 4) then 20
  else if ge (toNumber q) (ofZ 3) then 10
  else 0.

Definition revenuePoints (r : num) : Z :=
  if gt r zero then 30 else 0.

Definition budgetPoints (b : option LeadBudget) : Z :=
  match b with
  | Some b => if gt (toNumber (budgetMin b)) (ofZ 1000) then 15 else 0
  | None => 0
  end.

Definition qualificationPoints (this : Call) : Z :=
  durationPoints (duration (timing this)) +
  qualityPoints (score (quality this)) +
  revenuePoints (amount (revenue this)) +
  budgetPoints (budget (leadData this)).

(** *** The order of the statuses

    initiated, ringing, answered, and then the four final ones. *)

Definition rank (s : Status) : nat :=
  match s with
  | initiated => 0
  | ringing => 1
  | answered => 2
  | completed | failed | no_answer | busy => 3
  end.

Definition isTerminal (s : Status) : bool :=
  match s with
  | completed | failed | no_answer | busy => true
  | _ => false
  end.

(** The records that a new call can become: any sequence of status updates
    and saves on a record whose timing paths hold the schema defaults. *)
Inductive reachable : Call -> Prop :=
| reach_create now this :
    timing this = defaultTiming now -> reachable this
| reach_updateStatus newStatus timestamp this :
    reachable this -> reachable (updateStatus newStatus timestamp this)
| reach_save this :
    reachable this -> reachable (pre_save this).

Definition nonNegative (n : num) : bool := ge n zero.

(** What "duration is non-negative, and zero when an endpoint is absent"
    says of one record. *)
Definition durationWellFormed (this : Call) : Prop :=
  nonNegative (duration (timing this)) = true /\
  (answeredAt (timing this) = None \/ endedAt (timing this) = None ->
   duration (timing this) = zero).

(** What "a final status never moves back" says of [updateStatus]. *)
Definition neverBackward : Prop :=
  forall this newStatus timestamp,
    isTerminal (status this) = true ->
    (rank (status this) <=
     rank (status (updateStatus newStatus timestamp this)))%nat.

(** *** Sample records *)

(** A new call at time 0, billed 2 per minute. *)
Definition newCall : Call :=
  mkCall initiated (defaultTiming 0) (mkQuality None)
         (mkCost (ofZ 2) zero) (mkRevenue zero)
         (mkLeadData false None None).

(** Answered at 1000 ms, completed at 126000 ms. *)
Definition completedCall : Call :=
  updateStatus completed 126000 (updateStatus answered 1000 newCall).

(** The completion event carries an earlier timestamp than the answer. *)
Definition lateAnswerCall : Call :=
  pre_save (updateStatus completed 0 (updateStatus answered 1000 newCall)).

End Call.

(** ** The platform: dates, and evaluation with effects *)

Module Platform.
Import JsNumber.

(** *** Traced evaluation

    A computation that also records, for every division it evaluates, the
    quantity being computed and the denominator. *)

Definition Traced (A : Type) : Type := A * list (string * num).

Definition ret {A : Type} (a : A) : Traced A := (a, []).

Definition bind {A B : Type} (m : Traced A) (k : A -> Traced B) : Traced B :=
  let (a, l) := m in
  let (b, l') := k a in
  (b, l ++ l').

Definition value {A : Type} (m : Traced A) : A := fst m.
Definition divisions {A : Type} (m : Traced A) : list (string * num) := snd m.

(** [a / b], evaluated for the quantity [what]. *)
Definition divide (what : string) (a b : num) : Traced num :=
  (div a b, [(what, b)]).

Definition is_zero_num (n : num) : bool :=
  match n with
  | Fin q => is_zero q
  | _ => false
  end.

(** The quantities that were divided by zero. *)
Definition zeroDivisions {A : Type} (m : Traced A) : list string :=
  map fst (filter (fun d => is_zero_num (snd d)) (divisions m)).

(** *** Exceptions *)

Inductive Exn : Type :=
| RangeError (message : string).

Definition result (A : Type) : Type := (Exn + A)%type.

Definition ok {A : Type} (a : A) : result A := inr a.
Definition throw {A : Type} (e : Exn) : result A := inl e.

Definition bindR {A B : Type} (m : result A) (k : A -> result B) : result B :=
  match m with
  | inl e => inl e
  | inr a => k a
  end.

(** *** Dates

    The process runs in UTC: local time is the time of the epoch value. *)

Definition msPerMinute : Z := 60000.
Definition msPerHour : Z := 3600000.
Definition msPerDay : Z := 86400000.

Definition digit (d : Z) : ascii := ascii_of_nat (48 + Z.to_nat d).

Definition twoDigits (n : Z) : string :=
  String (digit (n / 10)) (String (digit (n mod 10)) EmptyString).

(** [date.toTimeString().slice(0, 5)]: the [HH:MM] prefix. *)
Definition toTimeString_slice_0_5 (date : Z) : string :=
  (twoDigits ((date / msPerHour) mod 24) ++ ":" ++
   twoDigits ((date / msPerMinute) mod 60))%string.

(** Day of the week, 0 for Sunday; the epoch was a Thursday. *)
Definition getDay (date : Z) : Z := (date / msPerDay + 4) mod 7.

Inductive WeekdayStyle : Type := narrow | short | long.

(** The values that the [weekday] option of [Intl.DateTimeFormat] accepts
    (ECMA-402, the options of the DateTimeFormat constructor). *)
Definition weekdayStyle (weekday : string) : option WeekdayStyle :=
  if String.eqb weekday "narrow" then Some narrow
  else if String.eqb weekday "short" then Some short
  else if String.eqb weekday "long" then Some long
  else None.

Definition weekdayLong (day : Z) : string :=
  match day with
  | 0 => "Sunday" | 1 => "Monday" | 2 => "Tuesday" | 3 => "Wednesday"
  | 4 => "Thursday" | 5 => "Friday" | _ => "Saturday"
  end.

Definition formatWeekday (style : WeekdayStyle) (day : Z) : string :=
  match style with
  | long => weekdayLong day
  | short => substring 0 3 (weekdayLong day)
  | narrow => substring 0 1 (weekdayLong day)
  end.

(** [date.toLocaleDateString('en-US', { weekday: weekday })]: reading the
    option throws a RangeError when its value is not one of the accepted
    ones, before anything is formatted. *)
Definition toLocaleDateString_weekday (date : Z) (weekday : string)
  : result string :=
  match weekdayStyle weekday with
  | Some style => ok (formatWeekday style (getDay date))
  | None =>
      throw (RangeError
        ("Value " ++ weekday ++
         " out of range for Intl.DateTimeFormat options property weekday"))
  end.

End Platform.

Declare Scope traced_scope.
Delimit Scope traced_scope with traced.
Notation "x <- m ;; k" := (Platform.bind m (fun x => k))
  (at level 61, m at next level, right associativity) : traced_scope.

Declare Scope result_scope.
Delimit Scope result_scope with result.
Notation "x <- m ;; k" := (Platform.bindR m (fun x => k))
  (at level 61, m at next level, right associativity) : result_scope.

(** ** The Campaign model

    [campaignSchema]: the paths that the hooks, virtuals and methods read or
    write.  Mongoose's change tracking is part of the document: the flag
    [modified_budget_spent] is what [isModified('budget.spent')] answers;
    an assignment to the path sets it when the assigned value differs from
    the current one. *)

Module Campaign.
Import JsNumber Platform.

Inductive Status : Type :=
| draft | active | paused | completed | cancelled.

Definition Status_eqb (a b : Status) : bool :=
  match a, b with
  | draft, draft | active, active | paused, paused
  | completed, completed | cancelled, cancelled => true
  | _, _ => false
  end.

Record Budget : Type := mkBudget {
  daily : num;
  total : num;
  spent : num;
  remaining : num
}.

Record Performance : Type := mkPerformance {
  totalCalls : num;
  totalDuration : num;
  averageDuration : num;
  conversionRate : num;
  costPerCall : num;
  revenuePerCall : num;
  roi : num
}.

Record ActiveHours : Type := mkActiveHours {
  start : string;      (* 24-hour format *)
  end_ : string        (* activeHours.end *)
}.

Record Schedule : Type := mkSchedule {
  startDate : Z;
  endDate : Z;
  activeHours : ActiveHours;
  activeDays : list string
}.

Record Campaign : Type := mkCampaign {
  status : Status;
  budget : Budget;
  performance : Performance;
  schedule : Schedule;
  modified_budget_spent : bool
}.

(** The argument of [updatePerformance]. *)
Record CallData : Type := mkCallData {
  duration : option num;
  cost : option num;
  revenue : option num
}.

(** A new campaign: the schema defaults for the budget and the performance
    counters. *)
Definition defaultPerformance : Performance :=
  mkPerformance zero zero zero zero zero zero zero.

Definition create (daily total : num) (schedule : Schedule) : Campaign :=
  mkCampaign draft (mkBudget daily total zero total) defaultPerformance
             schedule false.

(** Assignments to single paths. *)
Definition set_performance (p : Performance) (this : Campaign) : Campaign :=
  mkCampaign (status this) (budget this) p (schedule this)
             (modified_budget_spent this).

Definition set_totalCalls (n : num) (this : Campaign) : Campaign :=
  let p := performance this in
  set_performance
    (mkPerformance n (totalDuration p) (averageDuration p) (conversionRate p)
                   (costPerCall p) (revenuePerCall p) (roi p)) this.

Definition set_totalDuration (n : num) (this : Campaign) : Campaign :=
  let p := performance this in
  set_performance
    (mkPerformance (totalCalls p) n (averageDuration p) (conversionRate p)
                   (costPerCall p) (revenuePerCall p) (roi p)) this.

Definition set_averageDuration (n : num) (this : Campaign) : Campaign :=
  let p := performance this in
  set_performance
    (mkPerformance (totalCalls p) (totalDuration p) n (conversionRate p)
                   (costPerCall p) (revenuePerCall p) (roi p)) this.

Definition set_costPerCall (n : num) (this : Campaign) : Campaign :=
  let p := performance this in
  set_performance
    (mkPerformance (totalCalls p) (totalDuration p) (averageDuration p)
                   (conversionRate p) n (revenuePerCall p) (roi p)) this.

Definition set_revenuePerCall (n : num) (this : Campaign) : Campaign :=
  let p := performance this in
  set_performance
    (mkPerformance (totalCalls p) (totalDuration p) (averageDuration p)
                   (conversionRate p) (costPerCall p) n (roi p)) this.

Definition set_roi (n : num) (this : Campaign) : Campaign :=
  let p := performance this in
  set_performance
    (mkPerformance (totalCalls p) (totalDuration p) (averageDuration p)
                   (conversionRate p) (costPerCall p) (revenuePerCall p) n)
    this.

(** [this.budget.spent = v], with the change tracking. *)
Definition set_budget_spent (v : num) (this : Campaign) : Campaign :=
  let b := budget this in
  mkCampaign (status this) (mkBudget (daily b) (total b) v (remaining b))
             (performance this) (schedule this)
             (modified_budget_spent this || negb (strictEq (spent b) v)).

Definition set_budget_remaining (v : num) (this : Campaign) : Campaign :=
  let b := budget this in
  mkCampaign (status this) (mkBudget (daily b) (total b) (spent b) v)
             (performance this) (schedule this) (modified_budget_spent this).

(** [this.isModified('budget.spent')] *)
Definition isModified_budget_spent (this : Campaign) : bool :=
  modified_budget_spent this.

(** Virtual for budget utilization *)
Definition budgetUtilization (this : Campaign) : Traced num :=
  if gt (total (budget this)) zero then
    (q <- divide "budgetUtilization" (spent (budget this))
                 (total (budget this)) ;;
     ret (mul q (ofZ 100)))%traced
  else ret zero.

(** Virtual for campaign efficiency *)
Definition efficiency (this : Campaign) : Traced num :=
  if gt (totalCalls (performance this)) zero then
    divide "efficiency" (revenuePerCall (performance this))
           (costPerCall (performance this))
  else ret zero.

(** Pre-save middleware to update remaining budget *)
Definition pre_save (this : Campaign) : Campaign :=
  if isModified_budget_spent this then
    set_budget_remaining (sub (total (budget this)) (spent (budget this))) this
  else this.

(** The return expression of [isActive], once the clock has been read. *)
Definition isActive_test (now : Z) (currentTime currentDay : string)
  (this : Campaign) : bool :=
  Status_eqb (status this) active &&
  (startDate (schedule this) <=? now) &&
  (now <=? endDate (schedule this)) &&
  existsb (String.eqb currentDay) (activeDays (schedule this)) &&
  String.leb (start (activeHours (schedule this))) currentTime &&
  String.leb currentTime (end_ (activeHours (schedule this))).

(** Method to check if campaign is active; [now] is what [new Date()]
    gives. *)
Definition isActive (now : Z) (this : Campaign) : result bool :=
  let currentTime := toTimeString_slice_0_5 now in
  (currentDay <- toLocaleDateString_weekday now "lowercase" ;;
   ok (isActive_test now currentTime currentDay this))%result.

(** Method to update performance metrics *)
Definition updatePerformance (callData : CallData) (this : Campaign)
  : Traced Campaign :=
  (let this :=
     set_totalCalls (add (totalCalls (performance this)) (ofZ 1)) this in
   let this :=
     set_totalDuration
       (add (totalDuration (performance this)) (orZero (duration callData)))
       this in
   avg <- divide "averageDuration" (totalDuration (performance this))
                 (totalCalls (performance this)) ;;
   let this := set_averageDuration avg this in
   this <-
     match cost callData with
     | Some c =>
         if truthy c then
           let this := set_budget_spent (add (spent (budget this)) c) this in
           cpc <- divide "costPerCall" (spent (budget this))
                         (totalCalls (performance this)) ;;
           ret (set_costPerCall cpc this)
         else ret this
     | None => ret this
     end ;;
   match revenue callData with
   | Some r =>
       if truthy r then
         rpc <- divide "revenuePerCall"
                  (add (mul (revenuePerCall (performance this))
                            (sub (totalCalls (performance this)) (ofZ 1)))
                       r)
                  (totalCalls (performance this)) ;;
         let this := set_revenuePerCall rpc this in
         q <- divide "roi"
                (sub (revenuePerCall (performance this))
                     (costPerCall (performance this)))
                (costPerCall (performance this)) ;;
         ret (set_roi (mul q (ofZ 100)) this)
       else ret this
   | None => ret this
   end)%traced.

(** Folding the outcomes of a list of calls, in order. *)
Definition foldCalls (calls : list CallData) (this : Campaign) : Campaign :=
  fold_left (fun c d => value (updatePerformance d c)) calls this.

(** [this.save()]: the pre-save hook runs, the document is written, and the
    change tracking starts afresh. *)
Definition save (this : Campaign) : Campaign :=
  let this := pre_save this in
  mkCampaign (status this) (budget this) (performance this) (schedule this)
             false.

(** The campaigns that a new campaign can become. *)
Inductive reachable : Campaign -> Prop :=
| reach_create daily total schedule :
    reachable (create daily total schedule)
| reach_updatePerformance callData this :
    reachable this -> reachable (value (updatePerformance callData this))
| reach_save this :
    reachable this -> reachable (save this).

(** *** Averages derived from raw sums

    The other way to keep the averages: store the sums and divide on
    read. *)

Record Sums : Type := mkSums {
  sumCalls : num;
  sumRevenue : num
}.

Definition noSums : Sums := mkSums zero zero.

Definition addCall (s : Sums) (callData : CallData) : Sums :=
  mkSums (add (sumCalls s) (ofZ 1))
         (add (sumRevenue s) (orZero (revenue callData))).

Definition sumCallsOf (calls : list CallData) : Sums :=
  fold_left addCall calls noSums.

Definition derivedRevenuePerCall (s : Sums) : num :=
  div (sumRevenue s) (sumCalls s).


(** *** Sample campaigns and calls *)

Definition weekdays : list string :=
  ["monday"; "tuesday"; "wednesday"; "thursday"; "friday"]%string.

(** Open through the whole of 1970, with the default hours and days. *)
Definition sampleSchedule : Schedule :=
  mkSchedule 0 (365 * msPerDay) (mkActiveHours "09:00" "17:00") weekdays.

(** Daily budget 100, total budget 1000, nothing spent. *)
Definition newCampaign : Campaign :=
  create (ofZ 100) (ofZ 1000) sampleSchedule.

Definition pausedCampaign : Campaign :=
  mkCampaign paused (budget newCampaign) (performance newCampaign)
             sampleSchedule false.

Definition callOfDuration (d : Z) : CallData :=
  mkCallData (Some (ofZ d)) None None.

Definition callOfCost (c : Z) : CallData :=
  mkCallData None (Some (ofZ c)) None.

Definition callOfRevenue (r : Z) : CallData :=
  mkCallData None None (Some (ofZ r)).

Definition callOfNothing : CallData :=
  mkCallData None None None.

(** Three calls costing 20 each. *)
Definition after3Costs : Campaign :=
  foldCalls [callOfCost 20; callOfCost 20; callOfCost 20] newCampaign.

(** A fourth call, which cost nothing. *)
Definition after3CostsAndFree : Campaign :=
  value (updatePerformance (callOfCost 0) after3Costs).

(** A call with revenue 100, then a call without revenue. *)
Definition revenueThenNone : list CallData :=
  [callOfRevenue 100; callOfNothing].


(** 10:00 on Monday 5 January 1970. *)
Definition mondayMorning : Z := 4 * msPerDay + 10 * msPerHour.

(** One call with revenue 100 and no cost. *)
Definition after1Revenue : Campaign :=
  value (updatePerformance (callOfRevenue 100) newCampaign).

End Campaign.

(** ** The virtuals of the Call model *)

Module CallVirtuals.
Import JsNumber Platform Call.

(** Virtual for call profitability *)
Definition profitability (this : Call) : num :=
  if gt (total (cost this)) zero then
    sub (amount (revenue this)) (total (cost this))
  else zero.

(** Virtual for ROI *)
Definition roi (this : Call) : Traced num :=
  if gt (total (cost this)) zero then
    (q <- divide "roi" (sub (amount (revenue this)) (total (cost this)))
                 (total (cost this)) ;;
     ret (mul q (ofZ 100)))%traced
  else ret zero.

(** Virtual for call efficiency: revenue per minute *)
Definition efficiency (this : Call) : Traced num :=
  if gt (duration (timing this)) zero then
    (minutes <- divide "minutes" (duration (timing this)) (ofZ 60) ;;
     divide "efficiency" (amount (revenue this)) minutes)%traced
  else ret zero.

End CallVirtuals.

(** ** The history of a call: status updates and saves, in order *)

Module CallHistory.
Import JsNumber Call.

Inductive Event : Type :=
| Update (newStatus : Status) (timestamp : Z)
| Save.

Definition step (this : Call) (e : Event) : Call :=
  match e with
  | Update newStatus timestamp => updateStatus newStatus timestamp this
  | Save => pre_save this
  end.

Definition run (events : list Event) (this : Call) : Call :=
  fold_left step events this.

Definition isAnswer (e : Event) : bool :=
  match e with
  | Update answered _ => true
  | _ => false
  end.

Definition isSet (d : option Z) : bool :=
  match d with Some _ => true | None => false end.

(** A call that rang and was not picked up, saved twice. *)
Definition missedCallEvents : list Event :=
  [Update ringing 1000; Save; Update no_answer 31000; Save].

(** A five-minute call of good quality that brought revenue. *)
Definition goodLead : Call :=
  mkCall completed
         (mkTiming (Some 0) (Some 1000) (Some 5000) (Some 305000)
                   (ofZ 300) (ofZ 4))
         (mkQuality (Some (ofZ 4))) (mkCost (ofZ 2) (ofZ 10))
         (mkRevenue (ofZ 50)) (mkLeadData false None None).

End CallHistory.

(** ** The call statistics

    [callSchema.statics.getStats]: the [$match] stage keeps the documents
    of the user created in the range, the [$group] stage with [_id: null]
    makes one group of them, and no group when there is none. *)

Module CallStats.
Import JsNumber Call.

(** A stored call: the document with its owner and its creation time. *)
Record StoredCall : Type := mkStoredCall {
  userId : string;
  createdAt : Z;
  document : Call
}.

Record DateRange : Type := mkDateRange {
  range_start : option Z;      (* dateRange.start *)
  range_end : option Z         (* dateRange.end *)
}.

(** The condition on [createdAt]: [$gte] and [$lte], each optional. *)
Record CreatedAtQuery : Type := mkCreatedAtQuery {
  gte : option Z;
  lte : option Z
}.

Record Match : Type := mkMatch {
  match_userId : string;
  match_createdAt : option CreatedAtQuery
}.

(** The construction of [match]; spreading an undefined [match.createdAt]
    gives no property. *)
Definition buildMatch (user : string) (dateRange : DateRange) : Match :=
  let m := mkMatch user None in
  let m :=
    match range_start dateRange with
    | Some s => mkMatch (match_userId m) (Some (mkCreatedAtQuery (Some s) None))
    | None => m
    end in
  match range_end dateRange with
  | Some e =>
      let spread :=
        match match_createdAt m with
        | Some q => q
        | None => mkCreatedAtQuery None None
        end in
      mkMatch (match_userId m) (Some (mkCreatedAtQuery (gte spread) (Some e)))
  | None => m
  end.

Definition satisfies (q : CreatedAtQuery) (d : Z) : bool :=
  match gte q with Some s => s <=? d | None => true end &&
  match lte q with Some e => d <=? e | None => true end.

Definition matches (m : Match) (doc : StoredCall) : bool :=
  String.eqb (userId doc) (match_userId m) &&
  match match_createdAt m with
  | Some q => satisfies q (createdAt doc)
  | None => true
  end.

Record Stats : Type := mkStats {
  totalCalls : num;
  totalDuration : num;
  totalCost : num;
  totalRevenue : num;
  averageDuration : num;
  qualifiedLeads : num
}.

(** The accumulator [$sum] over the documents of a group. *)
Definition sumOf (f : StoredCall -> num) (docs : list StoredCall) : num :=
  fold_left (fun acc doc => add acc (f doc)) docs zero.

(** The accumulator [$avg]. *)
Definition avgOf (f : StoredCall -> num) (docs : list StoredCall) : num :=
  div (sumOf f docs) (ofZ (Z.of_nat (List.length docs))).

Definition group (docs : list StoredCall) : list Stats :=
  match docs with
  | [] => []
  | _ :: _ =>
      [ mkStats
          (sumOf (fun _ => ofZ 1) docs)
          (sumOf (fun doc => duration (timing (document doc))) docs)
          (sumOf (fun doc => total (cost (document doc))) docs)
          (sumOf (fun doc => amount (revenue (document doc))) docs)
          (avgOf (fun doc => duration (timing (document doc))) docs)
          (sumOf (fun doc =>
                    if isQualified (leadData (document doc))
                    then ofZ 1 else ofZ 0) docs) ]
  end.

(** [getStats(userId, dateRange)] over the collection of stored calls. *)
Definition getStats (collection : list StoredCall) (user : string)
  (dateRange : DateRange) : list Stats :=
  group (filter (matches (buildMatch user dateRange)) collection).

(** The stored calls of the user created in the range. *)
Definition ofUserInRange (collection : list StoredCall) (user : string)
  (dateRange : DateRange) : list StoredCall :=
  filter (fun doc =>
            String.eqb (userId doc) user &&
            (match range_start dateRange with
             | Some s => s <=? createdAt doc
             | None => true
             end &&
             match range_end dateRange with
             | Some e => createdAt doc <=? e
             | None => true
             end)) collection.

Definition qualifiedOnes (docs : list StoredCall) : list StoredCall :=
  filter (fun doc => isQualified (leadData (document doc))) docs.

(** What the caller means by the range. *)
Definition inRange (dateRange : DateRange) (d : Z) : bool :=
  match range_start dateRange with Some s => s <=? d | None => true end &&
  match range_end dateRange with Some e => d <=? e | None => true end.

End CallStats.

(** ** The duration virtual of the Campaign model *)

Module CampaignVirtuals.
Import JsNumber Platform Campaign.

(** Virtual for campaign duration, in days.  Both dates are present in a
    [Schedule], so the test on them succeeds. *)
Definition duration (this : Campaign) : num :=
  ceil (div (sub (ofZ (endDate (schedule this)))
                 (ofZ (startDate (schedule this))))
            (ofZ (1000 * 60 * 60 * 24))).

End CampaignVirtuals.

(** ** Sums over the calls folded into a campaign *)

Module CampaignSums.
Import JsNumber Platform Campaign.

(** The sum of one path of the calls, a missing, zero or NaN value
    counting for 0, added to [init] in the order of the calls. *)
Definition sumBy (path : CallData -> option num) (calls : list CallData)
  (init : num) : num :=
  fold_left (fun acc callData => add acc (orZero (path callData))) calls init.

(** The remaining budget is up to date and no change of [budget.spent] is
    pending. *)
Definition settled (this : Campaign) : Prop :=
  remaining (budget this) = sub (total (budget this)) (spent (budget this)) /\
  modified_budget_spent this = false.



End CampaignSums.

(** ** The API client of the frontend

    The two interceptors of the axios instance.  The browser is the state
    they act on: the [token] item of the local storage, the location and
    the console. *)

Module Api.

Local Open Scope string_scope.

Record Browser : Type := mkBrowser {
  token : option string;               (* localStorage.getItem('token') *)
  href : string;                       (* window.location.href *)
  console : list (string * option string)    (* console.error(label, text) *)
}.

(** A request configuration: its headers, by name, and the rest. *)
Record Config : Type := mkConfig {
  url : string;
  headers : list (string * string)
}.

(** [headers[name] = value]: the value of the name is replaced, or the
    name is added. *)
Fixpoint setHeader (name value : string) (hs : list (string * string))
  : list (string * string) :=
  match hs with
  | [] => [(name, value)]
  | (n, v) :: hs =>
      if String.eqb n name then (name, value) :: hs
      else (n, v) :: setHeader name value hs
  end.

Fixpoint getHeader (name : string) (hs : list (string * string))
  : option string :=
  match hs with
  | [] => None
  | (n, v) :: hs => if String.eqb n name then Some v else getHeader name hs
  end.

(** ToBoolean on a string: the empty string is falsy. *)
Definition truthyString (s : string) : bool :=
  match s with
  | EmptyString => false
  | String _ _ => true
  end.

(** Request interceptor to add auth token *)
Definition requestInterceptor (browser : Browser) (config : Config) : Config :=
  match token browser with
  | Some t =>
      if truthyString t then
        mkConfig (url config)
                 (setHeader "Authorization" ("Bearer " ++ t) (headers config))
      else config
  | None => config
  end.

(** The body of an error response: [data] may be missing, and so may its
    [message]. *)
Record Data : Type := mkData {
  message : option string
}.

Record Response : Type := mkResponse {
  status : Z;
  data : option Data
}.

Record AxiosError : Type := mkAxiosError {
  response : option Response
}.

(** What becomes of the promise: the interceptor rejects with the error it
    was given, unless reading [error.response.data.message] throws. *)
Inductive Rejection : Type :=
| RejectedWith (error : AxiosError)
| TypeErrorThrown.

(** [error.response?.status] compared with [test]; a missing response
    passes no test. *)
Definition statusIs (test : Z -> bool) (error : AxiosError) : bool :=
  match response error with
  | Some r => test (status r)
  | None => false
  end.

(** [console.error(label, error.response.data.message)] *)
Definition logMessage (label : string) (error : AxiosError)
  (browser : Browser) : option Browser :=
  match response error with
  | Some r =>
      match data r with
      | Some d =>
          Some (mkBrowser (token browser) (href browser)
                          (console browser ++ [(label, message d)]))
      | None => None
      end
  | None => None
  end.

(** Response interceptor to handle errors *)
Definition responseErrorInterceptor (browser : Browser) (error : AxiosError)
  : Browser * Rejection :=
  (* Handle 401 Unauthorized errors *)
  let browser :=
    if statusIs (Z.eqb 401) error then
      mkBrowser None "/login" (console browser)
    else browser in
  (* Handle 403 Forbidden errors *)
  let step :=
    if statusIs (Z.eqb 403) error then logMessage "Access denied:" error browser
    else Some browser in
  match step with
  | None => (browser, TypeErrorThrown)
  | Some browser =>
      (* Handle 500 Internal Server errors *)
      let step :=
        if statusIs (Z.leb 500) error
        then logMessage "Server error:" error browser
        else Some browser in
      match step with
      | None => (browser, TypeErrorThrown)
      | Some browser => (browser, RejectedWith error)
      end
  end.

(** A logged-in browser, and a request without headers. *)
Definition loggedIn : Browser := mkBrowser (Some "abc") "/dashboard" [].
Definition plainRequest : Config := mkConfig "/campaigns" [].
Definition unauthorized : AxiosError :=
  mkAxiosError (Some (mkResponse 401 (Some (mkData (Some "expired"))))).

End Api.

(** ** The routes of the frontend

    The two route guards of the application and the table of its routes.
    A page stands for the element that shows it; the [Layout] around the
    pages of the protected routes is not represented. *)

Module App.

Local Open Scope string_scope.

(** What [useAuth()] gives: the user, if any, and whether the session is
    still being loaded. *)
Record Auth : Type := mkAuth {
  user : option string;
  loading : bool
}.

Inductive Page : Type :=
| LandingPage | LoginPage | RegisterPage | DashboardPage | CampaignsPage
| CreateCampaignPage | CampaignDetailPage | CallsPage | CallDetailPage
| AnalyticsPage | ProfilePage | BillingPage | NotFoundPage.

(** What a route renders: the spinner, a redirect, or its page. *)
Inductive Element : Type :=
| LoadingSpinner
| Navigate (to : string)
| Render (page : Page).

(** Protected Route Component *)
Definition ProtectedRoute (auth : Auth) (children : Element) : Element :=
  if loading auth then LoadingSpinner
  else match user auth with
       | None => Navigate "/login"
       | Some _ => children
       end.

(** Public Route Component (redirects if already authenticated) *)
Definition PublicRoute (auth : Auth) (children : Element) : Element :=
  if loading auth then LoadingSpinner
  else match user auth with
       | Some _ => Navigate "/dashboard"
       | None => children
       end.

Inductive Guard : Type := Unguarded | Public | Protected.

Record Route : Type := mkRoute {
  path : string;
  guard : Guard;
  page : Page
}.

(** The routes, in the order of the source. *)
Definition routes : list Route :=
  [ mkRoute "/" Unguarded LandingPage;
    mkRoute "/login" Public LoginPage;
    mkRoute "/register" Public RegisterPage;
    mkRoute "/dashboard" Protected DashboardPage;
    mkRoute "/campaigns" Protected CampaignsPage;
    mkRoute "/campaigns/create" Protected CreateCampaignPage;
    mkRoute "/campaigns/:id" Protected CampaignDetailPage;
    mkRoute "/calls" Protected CallsPage;
    mkRoute "/calls/:id" Protected CallDetailPage;
    mkRoute "/analytics" Protected AnalyticsPage;
    mkRoute "/profile" Protected ProfilePage;
    mkRoute "/billing" Protected BillingPage;
    mkRoute "*" Unguarded NotFoundPage ].

(** The element of a route. *)
Definition element (auth : Auth) (route : Route) : Element :=
  match guard route with
  | Unguarded => Render (page route)
  | Public => PublicRoute auth (Render (page route))
  | Protected => ProtectedRoute auth (Render (page route))
  end.

(** The route of a location that is the path of a route without
    parameters: such a route is matched by its own path before any route
    with a parameter and before the catch-all route. *)
Definition staticRoute (location : string) : option Route :=
  find (fun route => String.eqb (path route) location) routes.

End App.

(** * Properties *)

(** ** Arithmetic of integer-valued numbers *)

Module JsNumberFacts.
Import JsNumber.

Lemma Fin_ext (x y : Qc) : (x == y)%Q -> Fin x = Fin y.
Proof. intros H. f_equal. now apply Qc_is_canon. Qed.

Lemma ofQ_ext (p q : Q) : (p == q)%Q -> ofQ p = ofQ q.
Proof.
  intros H. unfold ofQ. apply Fin_ext. simpl. now rewrite H.
Qed.

Lemma add_ofZ (a b : Z) : add (ofZ a) (ofZ b) = ofZ (a + b).
Proof.
  unfold ofZ, ofQ, add. apply Fin_ext.
  unfold Qcplus, Q2Qc, this. rewrite !Qred_correct.
  now rewrite inject_Z_plus.
Qed.

Lemma sub_ofZ (a b : Z) : sub (ofZ a) (ofZ b) = ofZ (a - b).
Proof.
  unfold sub, ofZ, ofQ, neg, add. apply Fin_ext.
  unfold Qcplus, Qcopp, Q2Qc, this. rewrite !Qred_correct.
  unfold Z.sub. now rewrite inject_Z_plus, inject_Z_opp.
Qed.

Lemma cmp_ofZ (a b : Z) : cmp (ofZ a) (ofZ b) = Some (a ?= b).
Proof.
  unfold ofZ, ofQ, cmp, Qccompare, Q2Qc, this. f_equal.
  rewrite <- Qred_compare. unfold Qcompare. simpl.
  now rewrite !Z.mul_1_r.
Qed.

Lemma ge_ofZ (a b : Z) : ge (ofZ a) (ofZ b) = (b <=? a).
Proof.
  unfold ge. rewrite cmp_ofZ, Z.leb_compare, (Z.compare_antisym a b).
  now destruct (a ?= b).
Qed.

Lemma gt_ofZ (a b : Z) : gt (ofZ a) (ofZ b) = (b <? a).
Proof.
  unfold gt. rewrite cmp_ofZ, Z.ltb_compare, (Z.compare_antisym a b).
  now destruct (a ?= b).
Qed.

Lemma min_ofZ (a b : Z) : min (ofZ a) (ofZ b) = ofZ (Z.min a b).
Proof.
  unfold min. rewrite cmp_ofZ. unfold Z.min. now destruct (a ?= b).
Qed.

Lemma is_zero_ofZ (b : Z) : is_zero (Q2Qc (inject_Z b)) = (b =? 0).
Proof.
  unfold is_zero, Q2Qc, this.
  destruct (Z.eqb_spec b 0) as [-> | Hb]; [reflexivity |].
  apply not_true_is_false. intros H. apply Qeq_bool_eq in H.
  rewrite Qred_correct in H. unfold Qeq in H. simpl in H. lia.
Qed.

Lemma floor_div_ofZ (a b : Z) :
  b <> 0 -> floor (div (ofZ a) (ofZ b)) = ofZ (a / b).
Proof.
  intros Hb. unfold div, ofZ at 1 2, ofQ.
  rewrite is_zero_ofZ. apply Z.eqb_neq in Hb. rewrite Hb.
  unfold floor. f_equal.
  rewrite Zdiv_Qdiv. apply Qfloor_comp.
  unfold Qcdiv, Qcmult, Qcinv, Q2Qc, this. rewrite !Qred_correct. reflexivity.
Qed.

Lemma eqb_eq (a b : num) : eqb a b = true -> a = b.
Proof.
  destruct a as [x | | |], b as [y | | |]; simpl; try discriminate; trivial.
  intros H. apply Fin_ext. now apply Qeq_bool_eq.
Qed.

Lemma eqb_neq (a b : num) : eqb a b = false -> a <> b.
Proof.
  intros H ->.
  destruct b as [y | | |]; simpl in H; try discriminate.
  assert (Ht : Qeq_bool y y = true) by (apply Qeq_eq_bool; reflexivity).
  rewrite Ht in H. discriminate.
Qed.

End JsNumberFacts.

(** ** Properties of the Call model *)

Module CallProps.
Import JsNumber JsNumberFacts Call.

Ltac num_simpl :=
  unfold zero;
  repeat first
    [ rewrite add_ofZ | rewrite sub_ofZ | rewrite min_ofZ
    | rewrite ge_ofZ | rewrite gt_ofZ ].

(** The score that the method accumulates is the sum of the points of the
    four rules. *)
Lemma calculateQualificationScore_points (this : Call) :
  calculateQualificationScore this =
  (set_isQualified (ge (ofZ (qualificationPoints this)) (ofZ 70))
     (set_qualificationScore
        (min (ofZ (qualificationPoints this)) (ofZ 100)) this),
   ofZ (qualificationPoints this)).
Proof.
  unfold calculateQualificationScore, qualificationPoints, durationPoints,
    qualityPoints, revenuePoints, budgetPoints.
  destruct (ge (duration (timing this)) (ofZ 300));
    [| destruct (ge (duration (timing this)) (ofZ 180));
       [| destruct (ge (duration (timing this)) (ofZ 60)) ] ];
  (destruct (ge (toNumber (score (quality this))) (ofZ 4));
    [| destruct (ge (toNumber (score (quality this))) (ofZ 3)) ]);
  destruct (gt (amount (revenue this)) zero);
  (destruct (budget (leadData this)) as [b |];
    [ destruct (gt (toNumber (budgetMin b)) (ofZ 1000)) |]);
  cbv zeta; num_simpl; reflexivity.
Qed.

Lemma qualificationPoints_range (this : Call) :
  0 <= qualificationPoints this <= 90.
Proof.
  unfold qualificationPoints, durationPoints, qualityPoints, revenuePoints,
    budgetPoints.
  repeat match goal with
         | |- context [if ?b then _ else _] => destruct b
         | |- context [match ?o with Some _ => _ | None => _ end] => destruct o
         end; lia.
Qed.

(** C1. [calculateQualificationScore] computes the reference score: the
    points of the duration tier (25, 15, 10 or 0, the highest tier only),
    of the quality score (20 or 10), of a positive revenue (30) and of a
    lead budget floor above 1000 (15), added from zero.  It stores
    min(score, 100) in [leadData.qualificationScore], sets
    [leadData.isQualified] to (score >= 70) and returns the score before the
    clamp.  The duration tiers are the ones stated, for every duration. *)
Theorem calculateQualificationScore_reference :
  (forall this : Call,
     let points := qualificationPoints this in
     let (this', returned) := calculateQualificationScore this in
     returned = ofZ points /\
     qualificationScore (leadData this') = Some (ofZ (Z.min points 100)) /\
     isQualified (leadData this') = (70 <=? points) /\
     budget (leadData this') = budget (leadData this) /\
     status this' = status this /\ timing this' = timing this /\
     quality this' = quality this /\ cost this' = cost this /\
     revenue this' = revenue this) /\
  (forall d : Z,
     durationPoints (ofZ d) =
     if 300 <=? d then 25 else if 180 <=? d then 15
     else if 60 <=? d then 10 else 0).
Proof.
  split.
  - intros this. cbv zeta.
    rewrite calculateQualificationScore_points.
    rewrite min_ofZ, ge_ofZ.
    repeat split; reflexivity.
  - intros d. unfold durationPoints. now rewrite !ge_ofZ.
Qed.

(** C10. The accumulated score is at most 90 (= 25 + 20 + 30 + 15), so the
    clamp to 100 changes nothing: the stored score is the returned one, and
    [isQualified] holds exactly when the stored score is at least 70. *)
Theorem qualificationScore_never_clamped (this : Call) :
  let (this', returned) := calculateQualificationScore this in
  le returned (ofZ 90) = true /\
  min returned (ofZ 100) = returned /\
  qualificationScore (leadData this') = Some returned /\
  isQualified (leadData this') =
    ge (toNumber (qualificationScore (leadData this'))) (ofZ 70).
Proof.
  rewrite calculateQualificationScore_points.
  pose proof (qualificationPoints_range this) as Hr.
  assert (Hmin : min (ofZ (qualificationPoints this)) (ofZ 100)
                 = ofZ (qualificationPoints this)).
  { rewrite min_ofZ. f_equal. lia. }
  repeat split.
  - unfold le. rewrite cmp_ofZ.
    destruct (Z.compare_spec (qualificationPoints this) 90); trivial; lia.
  - exact Hmin.
  - simpl. now rewrite Hmin.
  - simpl. now rewrite Hmin.
Qed.

(** Case analysis on the three timestamps that the hook tests, with the
    first two assignments carried out. *)
Ltac pre_save_cases this :=
  unfold pre_save;
  destruct (answeredAt (timing this)) as [a |] eqn:Ha,
           (endedAt (timing this)) as [e |] eqn:He,
           (ringingAt (timing this)) as [r |] eqn:Hr;
  cbn [set_duration set_waitTime set_timing timing ringingAt answeredAt
       endedAt duration cost];
  rewrite ?Ha, ?He, ?Hr;
  cbn [set_duration set_waitTime set_timing timing ringingAt answeredAt
       endedAt duration cost].

(** The three steps of the hook, one path at a time. *)
Lemma pre_save_duration (this : Call) :
  duration (timing (pre_save this)) =
  match answeredAt (timing this), endedAt (timing this) with
  | Some a, Some e => ofZ ((e - a) / 1000)
  | _, _ => duration (timing this)
  end.
Proof.
  pre_save_cases this;
    match goal with
    | |- context [if ?b then _ else _] => destruct b
    end;
    cbn [set_cost_total set_waitTime set_timing timing duration];
    rewrite ?sub_ofZ, ?floor_div_ofZ by lia; reflexivity.
Qed.

Lemma pre_save_waitTime (this : Call) :
  waitTime (timing (pre_save this)) =
  match ringingAt (timing this), answeredAt (timing this) with
  | Some r, Some a => ofZ ((a - r) / 1000)
  | _, _ => waitTime (timing this)
  end.
Proof.
  pre_save_cases this;
    match goal with
    | |- context [if ?b then _ else _] => destruct b
    end;
    cbn [set_cost_total set_waitTime set_timing timing waitTime];
    rewrite ?sub_ofZ, ?floor_div_ofZ by lia; reflexivity.
Qed.

Lemma pre_save_timestamps (this : Call) :
  initiatedAt (timing (pre_save this)) = initiatedAt (timing this) /\
  ringingAt (timing (pre_save this)) = ringingAt (timing this) /\
  answeredAt (timing (pre_save this)) = answeredAt (timing this) /\
  endedAt (timing (pre_save this)) = endedAt (timing this).
Proof.
  pre_save_cases this;
    match goal with
    | |- context [if ?b then _ else _] => destruct b
    end;
    cbn; rewrite ?Ha, ?He, ?Hr; repeat split; reflexivity.
Qed.

Lemma pre_save_others (this : Call) :
  status (pre_save this) = status this /\
  quality (pre_save this) = quality this /\
  perMinute (cost (pre_save this)) = perMinute (cost this) /\
  revenue (pre_save this) = revenue this /\
  leadData (pre_save this) = leadData this.
Proof.
  pre_save_cases this;
    match goal with
    | |- context [if ?b then _ else _] => destruct b
    end;
    repeat split; reflexivity.
Qed.

Lemma pre_save_cost_total (this : Call) :
  total (cost (pre_save this)) =
  if gt (duration (timing (pre_save this))) zero
     && gt (perMinute (cost this)) zero
  then mul (div (duration (timing (pre_save this))) (ofZ 60))
           (perMinute (cost this))
  else total (cost this).
Proof.
  rewrite pre_save_duration. pre_save_cases this;
    rewrite ?sub_ofZ, ?floor_div_ofZ by lia;
    match goal with
    | |- context [if ?b then _ else _] => destruct b
    end; reflexivity.
Qed.

(** A call answered at [T0] and ended 125 s later. *)
Lemma pre_save_125_seconds (this : Call) (T0 : Z) :
  let this' :=
    pre_save (set_endedAt (T0 + 125000) (set_answeredAt T0 this)) in
  duration (timing this') = ofZ 125 /\
  total (cost this') =
    (if gt (perMinute (cost this)) zero
     then mul (div (ofZ 125) (ofZ 60)) (perMinute (cost this))
     else total (cost this)).
Proof.
  cbv zeta.
  assert (Hd : duration (timing (pre_save
                 (set_endedAt (T0 + 125000) (set_answeredAt T0 this))))
               = ofZ 125).
  { rewrite pre_save_duration. cbn. f_equal.
    replace (T0 + 125000 - T0) with (125 * 1000) by lia.
    now rewrite Z.div_mul. }
  split; [exact Hd |].
  rewrite pre_save_cost_total, Hd. unfold zero. rewrite gt_ofZ.
  reflexivity.
Qed.

(** C2. The pre-save hook: with [answeredAt] and [endedAt] both set,
    duration = floor((endedAt - answeredAt) / 1000); with [ringingAt] and
    [answeredAt] both set, waitTime = floor((answeredAt - ringingAt) / 1000);
    with duration > 0 and cost.perMinute > 0, cost.total = (duration / 60) *
    cost.perMinute; a path whose condition fails keeps its value, the other
    paths are untouched, and the hook always returns the document.  A call
    answered at T0 and ended 125 s later gets duration 125 and, under the
    rate test of the third rule, cost.total = (125 / 60) * perMinute. *)
Theorem pre_save_derived_fields :
  (forall this : Call,
     let t := timing this in
     let this' := pre_save this in
     duration (timing this') =
       match answeredAt t, endedAt t with
       | Some a, Some e => ofZ ((e - a) / 1000)
       | _, _ => duration t
       end /\
     waitTime (timing this') =
       match ringingAt t, answeredAt t with
       | Some r, Some a => ofZ ((a - r) / 1000)
       | _, _ => waitTime t
       end /\
     total (cost this') =
       (if gt (duration (timing this')) zero && gt (perMinute (cost this)) zero
        then mul (div (duration (timing this')) (ofZ 60))
                 (perMinute (cost this))
        else total (cost this)) /\
     initiatedAt (timing this') = initiatedAt t /\
     ringingAt (timing this') = ringingAt t /\
     answeredAt (timing this') = answeredAt t /\
     endedAt (timing this') = endedAt t /\
     status this' = status this /\ quality this' = quality this /\
     perMinute (cost this') = perMinute (cost this) /\
     revenue this' = revenue this /\ leadData this' = leadData this) /\
  (forall (this : Call) (T0 : Z),
     let this' :=
       pre_save (set_endedAt (T0 + 125000) (set_answeredAt T0 this)) in
     duration (timing this') = ofZ 125 /\
     total (cost this') =
       (if gt (perMinute (cost this)) zero
        then mul (div (ofZ 125) (ofZ 60)) (perMinute (cost this))
        else total (cost this))).
Proof.
  split.
  - intros this. cbv zeta.
    pose proof (pre_save_timestamps this) as (H1 & H2 & H3 & H4).
    pose proof (pre_save_others this) as (H5 & H6 & H7 & H8 & H9).
    repeat split;
      auto using pre_save_duration, pre_save_waitTime, pre_save_cost_total.
  - intros this T0. exact (pre_save_125_seconds this T0).
Qed.

(** With the rate that the schema admits (a number that is not negative)
    and a total cost still at its default, the 125 s call costs
    (125 / 60) * perMinute whatever the rate. *)
Lemma pre_save_125_seconds_default_total (this : Call) (T0 : Z) (rate : Qc) :
  perMinute (cost this) = Fin rate -> (0 <= rate)%Qc ->
  total (cost this) = zero ->
  total (cost (pre_save (set_endedAt (T0 + 125000) (set_answeredAt T0 this))))
  = mul (div (ofZ 125) (ofZ 60)) (perMinute (cost this)).
Proof.
  intros Hrate Hpos Htotal.
  destruct (pre_save_125_seconds this T0) as [_ Hc].
  rewrite Hc, Htotal, Hrate.
  unfold gt, cmp, zero at 1, ofZ at 1, ofQ.
  destruct (rate ?= Q2Qc (inject_Z 0))%Qc eqn:Hcmp; trivial.
  - apply Qceq_alt in Hcmp. rewrite Hcmp. apply eqb_eq. reflexivity.
  - apply Qclt_alt in Hcmp. exfalso.
    apply (Qcle_not_lt _ _ Hpos). exact Hcmp.
Qed.

(** *** Status updates *)

Lemma updateStatus_status (newStatus : Status) (timestamp : Z) (this : Call) :
  status (updateStatus newStatus timestamp this) = newStatus.
Proof. now destruct newStatus. Qed.

Lemma updateStatus_duration (newStatus : Status) (timestamp : Z) (this : Call) :
  duration (timing (updateStatus newStatus timestamp this))
  = duration (timing this).
Proof. now destruct newStatus. Qed.

(** A status update never clears a timestamp. *)
Lemma updateStatus_keeps_endpoints (newStatus : Status) (timestamp : Z)
  (this : Call) :
  let this' := updateStatus newStatus timestamp this in
  answeredAt (timing this') = None \/ endedAt (timing this') = None ->
  answeredAt (timing this) = None \/ endedAt (timing this) = None.
Proof.
  destruct newStatus; cbn; intros [H | H]; auto; discriminate.
Qed.

Lemma reachable_duration_zero (this : Call) :
  reachable this ->
  answeredAt (timing this) = None \/ endedAt (timing this) = None ->
  duration (timing this) = zero.
Proof.
  induction 1 as [now this Ht | newStatus timestamp this Hr IH | this Hr IH].
  - intros _. now rewrite Ht.
  - intros H. rewrite updateStatus_duration.
    apply IH. exact (updateStatus_keeps_endpoints _ _ _ H).
  - pose proof (pre_save_timestamps this) as (_ & _ & Ha & He).
    rewrite Ha, He. intros H. rewrite pre_save_duration.
    destruct (answeredAt (timing this)), (endedAt (timing this));
      auto; destruct H; discriminate.
Qed.

Lemma floor_seconds_nonneg (a e : Z) : (0 <=? (e - a) / 1000) = (a <=? e).
Proof.
  destruct (Z.leb_spec a e) as [H | H].
  - apply Z.leb_le. apply Z.div_pos; lia.
  - apply Z.leb_gt. apply Z.div_lt_upper_bound; lia.
Qed.

(** C5, as the code has it.  On every record reached from a new one by
    status updates and saves, duration is zero while [answeredAt] or
    [endedAt] is absent; once both are set, the pre-save hook makes duration
    floor((endedAt - answeredAt) / 1000), which is non-negative exactly when
    [endedAt] is not earlier than [answeredAt]. *)
Theorem reachable_duration (this : Call) :
  reachable this ->
  (answeredAt (timing this) = None \/ endedAt (timing this) = None ->
   duration (timing this) = zero) /\
  (forall a e : Z,
     answeredAt (timing this) = Some a ->
     endedAt (timing this) = Some e ->
     duration (timing (pre_save this)) = ofZ ((e - a) / 1000) /\
     nonNegative (duration (timing (pre_save this))) = (a <=? e)).
Proof.
  intros Hr. split.
  - now apply reachable_duration_zero.
  - intros a e Ha He.
    assert (Hd : duration (timing (pre_save this)) = ofZ ((e - a) / 1000)).
    { rewrite pre_save_duration. now rewrite Ha, He. }
    split; [exact Hd |].
    rewrite Hd. unfold nonNegative, zero. rewrite ge_ofZ.
    apply floor_seconds_nonneg.
Qed.

Lemma reachable_completedCall : reachable completedCall.
Proof.
  unfold completedCall.
  do 2 apply reach_updateStatus. now apply (reach_create 0).
Qed.

Lemma reachable_duration_witness :
  reachable completedCall /\
  duration (timing (pre_save completedCall)) = ofZ ((126000 - 1000) / 1000) /\
  nonNegative (duration (timing (pre_save completedCall)))
  = (1000 <=? 126000).
Proof.
  split; [exact reachable_completedCall |].
  exact (proj2 (reachable_duration completedCall reachable_completedCall)
           1000 126000 eq_refl eq_refl).
Defined.

(** C5 fails as stated: a completion event stamped before the answer gives
    a negative duration on save. *)
Lemma lateAnswerCall_negative_duration :
  reachable lateAnswerCall /\
  duration (timing lateAnswerCall) = ofZ (-1) /\
  nonNegative (duration (timing lateAnswerCall)) = false /\
  ~ (forall this : Call, reachable this -> durationWellFormed this).
Proof.
  assert (Hr : reachable lateAnswerCall).
  { unfold lateAnswerCall. apply reach_save.
    do 2 apply reach_updateStatus. now apply (reach_create 0). }
  assert (Hd : duration (timing lateAnswerCall) = ofZ (-1)).
  { unfold lateAnswerCall. rewrite pre_save_duration. reflexivity. }
  assert (Hn : nonNegative (duration (timing lateAnswerCall)) = false).
  { rewrite Hd. unfold nonNegative, zero. now rewrite ge_ofZ. }
  repeat split; trivial.
  intros H. destruct (H lateAnswerCall Hr) as [Hpos _].
  rewrite Hn in Hpos. discriminate.
Qed.

(** C6, as the code has it.  [updateStatus] sets the status to the requested
    one whatever the current status is, stamps [ringingAt] for ringing,
    [answeredAt] for answered and [endedAt] for the four final statuses, and
    changes nothing else; the status keeps or advances its rank exactly when
    the requested status is not earlier than the current one. *)
Theorem updateStatus_unconditional (newStatus : Status) (timestamp : Z)
  (this : Call) :
  let this' := updateStatus newStatus timestamp this in
  status this' = newStatus /\
  ((rank (status this) <= rank (status this'))%nat <->
   (rank (status this) <= rank newStatus)%nat) /\
  ringingAt (timing this') =
    match newStatus with
    | ringing => Some timestamp
    | _ => ringingAt (timing this)
    end /\
  answeredAt (timing this') =
    match newStatus with
    | answered => Some timestamp
    | _ => answeredAt (timing this)
    end /\
  endedAt (timing this') =
    (if isTerminal newStatus then Some timestamp else endedAt (timing this)) /\
  initiatedAt (timing this') = initiatedAt (timing this) /\
  duration (timing this') = duration (timing this) /\
  waitTime (timing this') = waitTime (timing this) /\
  quality this' = quality this /\ cost this' = cost this /\
  revenue this' = revenue this /\ leadData this' = leadData this.
Proof.
  cbv zeta. rewrite updateStatus_status.
  destruct newStatus; cbn; repeat split; auto.
Qed.

(** C6 fails as stated: a completed call that is told it is ringing is
    ringing again. *)
Lemma completedCall_back_to_ringing :
  status completedCall = completed /\
  status (updateStatus ringing 130000 completedCall) = ringing /\
  ~ neverBackward.
Proof.
  repeat split.
  intros H.
  specialize (H completedCall ringing 130000 eq_refl).
  cbn in H. lia.
Qed.

End CallProps.

(** ** Properties of the Campaign model *)

Module CampaignProps.
Import JsNumber JsNumberFacts Platform Campaign.

(** Closed equations between numbers, by evaluation. *)
Ltac num_eval := apply eqb_eq; vm_compute; reflexivity.
Ltac num_differ := apply eqb_neq; vm_compute; reflexivity.

(** *** One fold step, path by path *)

Lemma updatePerformance_counters (callData : CallData) (this : Campaign) :
  let this' := value (updatePerformance callData this) in
  totalCalls (performance this')
  = add (totalCalls (performance this)) (ofZ 1) /\
  totalDuration (performance this')
  = add (totalDuration (performance this)) (orZero (duration callData)) /\
  averageDuration (performance this')
  = div (totalDuration (performance this')) (totalCalls (performance this')).
Proof.
  unfold updatePerformance.
  destruct (cost callData) as [c |]; [destruct (truthy c) |];
    (destruct (revenue callData) as [r |]; [destruct (truthy r) |]);
    cbn; repeat split; reflexivity.
Qed.

Lemma updatePerformance_cost (callData : CallData) (this : Campaign)
  (c : num) :
  cost callData = Some c -> truthy c = true ->
  let this' := value (updatePerformance callData this) in
  spent (budget this') = add (spent (budget this)) c /\
  costPerCall (performance this')
  = div (spent (budget this')) (totalCalls (performance this')).
Proof.
  intros Hc Ht. unfold updatePerformance. rewrite Hc, Ht.
  destruct (revenue callData) as [r |]; [destruct (truthy r) |];
    cbn; split; reflexivity.
Qed.

Lemma updatePerformance_no_cost (callData : CallData) (this : Campaign) :
  provided (cost callData) = false ->
  let this' := value (updatePerformance callData this) in
  budget this' = budget this /\
  costPerCall (performance this') = costPerCall (performance this).
Proof.
  intros Hc. unfold updatePerformance.
  destruct (cost callData) as [c |]; simpl in Hc; [rewrite Hc |];
    (destruct (revenue callData) as [r |]; [destruct (truthy r) |]);
    cbn; split; reflexivity.
Qed.

(** C3, as the code has it.  Folding a call's outcome into a campaign adds
    1 to totalCalls, adds the call's duration (0 by default) to
    totalDuration, sets averageDuration = totalDuration / totalCalls and,
    when a cost is given and is not zero, adds it to budget.spent and sets
    costPerCall = budget.spent / totalCalls.  Three calls of 60, 120 and
    180 seconds give a new campaign totalCalls 3, totalDuration 360 and
    averageDuration 120; three calls costing 20 each give it spent 60 and
    costPerCall 20. *)
Theorem updatePerformance_fold :
  (forall (callData : CallData) (this : Campaign),
     let this' := value (updatePerformance callData this) in
     totalCalls (performance this')
     = add (totalCalls (performance this)) (ofZ 1) /\
     totalDuration (performance this')
     = add (totalDuration (performance this)) (orZero (duration callData)) /\
     averageDuration (performance this')
     = div (totalDuration (performance this'))
           (totalCalls (performance this')) /\
     match cost callData with
     | Some c =>
         if truthy c then
           spent (budget this') = add (spent (budget this)) c /\
           costPerCall (performance this')
           = div (spent (budget this')) (totalCalls (performance this'))
         else True
     | None => True
     end) /\
  (let this' :=
     foldCalls [callOfDuration 60; callOfDuration 120; callOfDuration 180]
               newCampaign in
   totalCalls (performance this') = ofZ 3 /\
   totalDuration (performance this') = ofZ 360 /\
   averageDuration (performance this') = ofZ 120) /\
  (spent (budget newCampaign) = ofZ 0 /\
   spent (budget after3Costs) = ofZ 60 /\
   costPerCall (performance after3Costs) = ofZ 20).
Proof.
  split; [| split].
  - intros callData this. cbv zeta.
    pose proof (updatePerformance_counters callData this) as (H1 & H2 & H3).
    repeat split; trivial.
    destruct (cost callData) as [c |] eqn:Hc; trivial.
    destruct (truthy c) eqn:Ht; trivial.
    exact (updatePerformance_cost callData this c Hc Ht).
  - cbv zeta. repeat split; num_eval.
  - repeat split; num_eval.
Qed.

(** C3 fails as stated for a cost of zero: the call is counted, but
    costPerCall keeps the value it had for three calls. *)
Lemma zero_cost_keeps_costPerCall :
  cost (callOfCost 0) = Some (ofZ 0) /\
  totalCalls (performance after3CostsAndFree) = ofZ 4 /\
  spent (budget after3CostsAndFree) = ofZ 60 /\
  costPerCall (performance after3CostsAndFree) = ofZ 20 /\
  div (spent (budget after3CostsAndFree))
      (totalCalls (performance after3CostsAndFree)) = ofZ 15 /\
  costPerCall (performance after3CostsAndFree)
  <> div (spent (budget after3CostsAndFree))
         (totalCalls (performance after3CostsAndFree)).
Proof.
  repeat split; try num_eval. num_differ.
Qed.

(** *** The running average of the revenue *)


Lemma updatePerformance_no_revenue (callData : CallData) (this : Campaign) :
  provided (revenue callData) = false ->
  let this' := value (updatePerformance callData this) in
  revenuePerCall (performance this') = revenuePerCall (performance this) /\
  roi (performance this') = roi (performance this).
Proof.
  intros Hr. unfold updatePerformance.
  destruct (revenue callData) as [r |]; simpl in Hr; [rewrite Hr |];
    (destruct (cost callData) as [c |]; [destruct (truthy c) |]);
    cbn; split; reflexivity.
Qed.

Lemma is_zero_false (x : Qc) : is_zero x = false -> x <> 0%Qc.
Proof. intros H ->. discriminate. Qed.






(** C4 at [revenueThenNone]: after a call with revenue 100 and a call
    without revenue, the running average is still 100, while the sum of the
    revenues over the two calls is 50. *)
Theorem revenuePerCall_skips_calls_without_revenue :
  totalCalls (performance (foldCalls revenueThenNone newCampaign)) = ofZ 2 /\
  revenuePerCall (performance (foldCalls revenueThenNone newCampaign))
  = ofZ 100 /\
  derivedRevenuePerCall (sumCallsOf revenueThenNone) = ofZ 50 /\
  revenuePerCall (performance (foldCalls revenueThenNone newCampaign))
  <> derivedRevenuePerCall (sumCallsOf revenueThenNone).
Proof.
  repeat split; try num_eval. num_differ.
Qed.

(** *** Divisions and their guards *)

Lemma gt_zero_not_zero (n : num) : gt n zero = true -> is_zero_num n = false.
Proof.
  destruct n as [q | | |]; cbn; trivial.
  unfold gt, cmp, zero, ofZ, ofQ, is_zero.
  destruct (Qeq_bool q 0) eqn:Hq; trivial.
  apply Qeq_bool_eq in Hq.
  assert (He : (q ?= Q2Qc (inject_Z 0))%Qc = Eq).
  { unfold Qccompare. apply Qeq_alt. rewrite Hq. reflexivity. }
  rewrite He. discriminate.
Qed.

(** X17.  The budget utilization tests its own denominator. *)
Lemma budgetUtilization_guarded (this : Campaign) :
  zeroDivisions (budgetUtilization this) = [].
Proof.
  unfold budgetUtilization.
  destruct (gt (total (budget this)) zero) eqn:Hg; [| reflexivity].
  unfold zeroDivisions. cbn.
  now rewrite (gt_zero_not_zero _ Hg).
Qed.

(** C7 at [after1Revenue]: a new campaign that received one call with
    revenue 100 and no cost has costPerCall 0; the fold divided by it to
    get the roi, and the efficiency, whose test is on totalCalls, divides by
    it as well. *)
Theorem costPerCall_zero_is_divided_by :
  reachable after1Revenue /\
  costPerCall (performance after1Revenue) = zero /\
  zeroDivisions (updatePerformance (callOfRevenue 100) newCampaign)
  = ["roi"%string] /\
  roi (performance after1Revenue) = PInf /\
  gt (totalCalls (performance after1Revenue)) zero = true /\
  zeroDivisions (efficiency after1Revenue) = ["efficiency"%string] /\
  value (efficiency after1Revenue) = PInf.
Proof.
  split.
  - unfold after1Revenue, newCampaign.
    apply reach_updatePerformance, reach_create.
  - repeat split; vm_compute; reflexivity.
Qed.

(** *** The remaining budget *)

Lemma pre_save_modified (this : Campaign) :
  isModified_budget_spent this = true ->
  pre_save this
  = set_budget_remaining (sub (total (budget this)) (spent (budget this)))
                         this.
Proof. intros H. unfold pre_save. now rewrite H. Qed.

Lemma pre_save_unmodified (this : Campaign) :
  isModified_budget_spent this = false -> pre_save this = this.
Proof. intros H. unfold pre_save. now rewrite H. Qed.

Lemma set_budget_spent_modified (v : num) (this : Campaign) :
  strictEq (spent (budget this)) v = false ->
  isModified_budget_spent (set_budget_spent v this) = true.
Proof.
  intros H. unfold isModified_budget_spent, set_budget_spent. cbn.
  rewrite H. apply orb_true_r.
Qed.

(** C8. After budget.spent has been given another value, the pre-save hook
    leaves budget.remaining = budget.total - budget.spent, and changes no
    other path. *)
Theorem pre_save_remaining (v : num) (this : Campaign) :
  strictEq (spent (budget this)) v = false ->
  let mutated := set_budget_spent v this in
  let this' := pre_save mutated in
  remaining (budget this')
  = sub (total (budget this')) (spent (budget this')) /\
  spent (budget this') = v /\
  total (budget this') = total (budget mutated) /\
  daily (budget this') = daily (budget mutated) /\
  status this' = status mutated /\
  performance this' = performance mutated /\
  schedule this' = schedule mutated /\
  modified_budget_spent this' = modified_budget_spent mutated.
Proof.
  intros H. cbv zeta.
  rewrite (pre_save_modified _ (set_budget_spent_modified v this H)).
  cbn. repeat split; reflexivity.
Qed.

Lemma pre_save_remaining_witness :
  strictEq (spent (budget newCampaign)) (ofZ 60) = false /\
  remaining (budget (pre_save (set_budget_spent (ofZ 60) newCampaign)))
  = sub (total (budget (pre_save (set_budget_spent (ofZ 60) newCampaign))))
        (spent (budget (pre_save (set_budget_spent (ofZ 60) newCampaign)))).
Proof.
  split; [reflexivity |].
  exact (proj1 (pre_save_remaining (ofZ 60) newCampaign eq_refl)).
Defined.

(** Folding a call with a finite cost other than zero is such a mutation
    when the amount spent is finite. *)
Lemma updatePerformance_marks_spent (callData : CallData) (this : Campaign)
  (c before : Qc) :
  cost callData = Some (Fin c) -> is_zero c = false ->
  spent (budget this) = Fin before ->
  isModified_budget_spent (value (updatePerformance callData this)) = true.
Proof.
  intros Hc Hz Hs. unfold updatePerformance. rewrite Hc. cbn [truthy].
  rewrite Hz. cbn [negb].
  assert (Hne : strictEq (Fin before) (Fin (before + c)%Qc) = false).
  { unfold strictEq, cmp.
    destruct (before ?= before + c)%Qc eqn:Hcmp; trivial.
    apply Qceq_alt in Hcmp. apply is_zero_false in Hz.
    exfalso. apply Hz.
    transitivity (before + c - before)%Qc; [ring |].
    rewrite <- Hcmp. ring. }
  destruct (revenue callData) as [r |]; [destruct (truthy r) |];
    cbn; rewrite Hs; cbn [add]; rewrite Hne; apply orb_true_r.
Qed.

(** The scenario of three calls costing 20 each: after the save, 940 of
    the 1000 remain. *)
Lemma after3Costs_remaining :
  remaining (budget (save after3Costs)) = ofZ 940.
Proof. num_eval. Qed.

(** *** The activity test *)

Example mondayMorning_time : toTimeString_slice_0_5 mondayMorning = "10:00"%string.
Proof. reflexivity. Qed.

Example mondayMorning_day :
  toLocaleDateString_weekday mondayMorning "long" = ok "Monday"%string.
Proof. reflexivity. Qed.

Lemma isActive_test_iff (now : Z) (currentTime currentDay : string)
  (this : Campaign) :
  isActive_test now currentTime currentDay this = true <->
  status this = active /\
  startDate (schedule this) <= now <= endDate (schedule this) /\
  In currentDay (activeDays (schedule this)) /\
  String.leb (start (activeHours (schedule this))) currentTime = true /\
  String.leb currentTime (end_ (activeHours (schedule this))) = true.
Proof.
  unfold isActive_test. rewrite !andb_true_iff, !Z.leb_le, existsb_exists.
  split.
  - intros (((((Hs & H1) & H2) & (d & Hin & Hd)) & H3) & H4).
    apply String.eqb_eq in Hd. subst d.
    repeat split; trivial. now destruct (status this).
  - intros (Hs & (H1 & H2) & Hin & H3 & H4).
    rewrite Hs. repeat split; trivial.
    exists currentDay. split; [exact Hin | apply String.eqb_refl].
Qed.

Lemma isActive_test_paused (now : Z) (currentTime currentDay : string)
  (this : Campaign) :
  status this = paused -> isActive_test now currentTime currentDay this = false.
Proof. intros H. unfold isActive_test. now rewrite H. Qed.

(** C9 on the code: [isActive] never gets to its test.  The weekday option
    [lowercase] is not one that the date formatter accepts, so reading the
    day of the week throws a RangeError on every call, also for a paused
    campaign, for which the answer should be false. *)
Theorem isActive_throws :
  (forall (now : Z) (this : Campaign),
     isActive now this =
     throw (RangeError "Value lowercase out of range for Intl.DateTimeFormat options property weekday")) /\
  status pausedCampaign = paused /\
  isActive mondayMorning pausedCampaign <> ok false.
Proof.
  split; [| split].
  - intros now this. reflexivity.
  - reflexivity.
  - discriminate.
Qed.

End CampaignProps.

(** ** Further properties of the Call model *)

Module CallFacts.
Import JsNumber JsNumberFacts Call CallHistory CallProps.

Lemma le_ofZ (a b : Z) : le (ofZ a) (ofZ b) = (a <=? b).
Proof.
  unfold le. rewrite cmp_ofZ, Z.leb_compare. now destruct (a ?= b).
Qed.

(** [d >= a] gives [d >= b] for a smaller integer [b]. *)
Lemma ge_ofZ_weaken (d : num) (a b : Z) :
  b <= a -> ge d (ofZ a) = true -> ge d (ofZ b) = true.
Proof.
  intros Hab. destruct d as [q | | |]; cbn; trivial.
  unfold ge, cmp, ofZ, ofQ. intros H.
  assert (Hqa : (Q2Qc (inject_Z a) <= q)%Qc).
  { apply Qcge_alt. intros Hlt. rewrite Hlt in H. discriminate. }
  assert (Hba : (Q2Qc (inject_Z b) <= Q2Qc (inject_Z a))%Qc).
  { unfold Qcle, Q2Qc, this. rewrite !Qred_correct.
    now rewrite <- Zle_Qle. }
  assert (Hqb : (Q2Qc (inject_Z b) <= q)%Qc)
    by (eapply Qcle_trans; eassumption).
  apply Qcge_alt in Hqb.
  destruct (q ?= Q2Qc (inject_Z b))%Qc; trivial. now elim Hqb.
Qed.

(** Projections of updated records, without touching the numbers. *)
Ltac call_fields :=
  cbn [timing answeredAt endedAt ringingAt initiatedAt duration waitTime
       status quality cost perMinute total revenue leadData
       set_status set_timing set_ringingAt set_answeredAt set_endedAt
       set_duration set_waitTime set_cost_total].

(** Two calls with the same paths are the same call. *)
Lemma Call_ext (c1 c2 : Call) :
  status c1 = status c2 ->
  initiatedAt (timing c1) = initiatedAt (timing c2) ->
  ringingAt (timing c1) = ringingAt (timing c2) ->
  answeredAt (timing c1) = answeredAt (timing c2) ->
  endedAt (timing c1) = endedAt (timing c2) ->
  duration (timing c1) = duration (timing c2) ->
  waitTime (timing c1) = waitTime (timing c2) ->
  quality c1 = quality c2 ->
  perMinute (cost c1) = perMinute (cost c2) ->
  total (cost c1) = total (cost c2) ->
  revenue c1 = revenue c2 ->
  leadData c1 = leadData c2 ->
  c1 = c2.
Proof.
  destruct c1 as [s1 [i1 r1 a1 e1 d1 w1] q1 [p1 t1] v1 l1],
           c2 as [s2 [i2 r2 a2 e2 d2 w2] q2 [p2 t2] v2 l2].
  cbn. intros; subst; reflexivity.
Qed.

(** X1.  Saving twice is saving once. *)
Theorem pre_save_idempotent (this : Call) :
  pre_save (pre_save this) = pre_save this.
Proof.
  pose proof (pre_save_timestamps this) as (Hi & Hr & Ha & He).
  pose proof (pre_save_others (pre_save this)) as (H1 & H2 & H3 & H4 & H5).
  pose proof (pre_save_timestamps (pre_save this)) as (Hi' & Hr' & Ha' & He').
  assert (Hd : duration (timing (pre_save (pre_save this)))
               = duration (timing (pre_save this))).
  { rewrite (pre_save_duration (pre_save this)), Ha, He.
    rewrite (pre_save_duration this).
    now destruct (answeredAt (timing this)), (endedAt (timing this)). }
  assert (Hw : waitTime (timing (pre_save (pre_save this)))
               = waitTime (timing (pre_save this))).
  { rewrite (pre_save_waitTime (pre_save this)), Hr, Ha.
    rewrite (pre_save_waitTime this).
    now destruct (ringingAt (timing this)), (answeredAt (timing this)). }
  apply Call_ext; trivial.
  pose proof (pre_save_others this) as (_ & _ & Hp & _).
  rewrite (pre_save_cost_total (pre_save this)), Hd, Hp.
  rewrite (pre_save_cost_total this).
  now destruct (gt (duration (timing (pre_save this))) zero
                && gt (perMinute (cost this)) zero).
Qed.

(** *** Histories *)

Lemma gt_zero_zero : gt zero zero = false.
Proof. unfold zero. now rewrite gt_ofZ. Qed.

Lemma whole_seconds_positive (x : Z) : (0 <? x / 1000) = (1000 <=? x).
Proof.
  destruct (Z.leb_spec 1000 x) as [H | H].
  - apply Z.ltb_lt. apply Z.div_str_pos. lia.
  - apply Z.ltb_ge.
    destruct (Z.le_gt_cases 0 x) as [Hx | Hx].
    + rewrite Z.div_small; lia.
    + apply Z.lt_le_incl. apply Z.div_lt_upper_bound; lia.
Qed.

(** X2.  A call that rings at [t1], is answered at [t2] and ends at [t3] in any
    final status has, once saved, waited floor((t2 - t1) / 1000) seconds
    and lasted floor((t3 - t2) / 1000) seconds, neither negative; it is
    charged for the whole seconds at the rate per minute when it lasted a
    second or more and the rate is positive, and keeps its total cost
    otherwise. *)
Theorem answered_call_history (this : Call) (t1 t2 t3 : Z) (final : Status) :
  isTerminal final = true -> t1 <= t2 <= t3 ->
  let this' :=
    run [Update ringing t1; Update answered t2; Update final t3; Save] this in
  status this' = final /\
  waitTime (timing this') = ofZ ((t2 - t1) / 1000) /\
  duration (timing this') = ofZ ((t3 - t2) / 1000) /\
  nonNegative (waitTime (timing this')) = true /\
  nonNegative (duration (timing this')) = true /\
  total (cost this') =
    (if (1000 <=? t3 - t2) && gt (perMinute (cost this)) zero
     then mul (div (ofZ ((t3 - t2) / 1000)) (ofZ 60)) (perMinute (cost this))
     else total (cost this)).
Proof.
  intros Hfinal Ht. cbv zeta. unfold run. cbn [fold_left step].
  set (c := updateStatus final t3
              (updateStatus answered t2 (updateStatus ringing t1 this))).
  assert (Hc : status c = final /\ ringingAt (timing c) = Some t1 /\
               answeredAt (timing c) = Some t2 /\
               endedAt (timing c) = Some t3 /\ cost c = cost this).
  { subst c. destruct final; try discriminate; repeat split; reflexivity. }
  destruct Hc as (Hs & Hr & Ha & He & Hcost).
  pose proof (pre_save_others c) as (Hs' & _ & Hp & _).
  assert (Hw : waitTime (timing (pre_save c)) = ofZ ((t2 - t1) / 1000))
    by (now rewrite pre_save_waitTime, Hr, Ha).
  assert (Hd : duration (timing (pre_save c)) = ofZ ((t3 - t2) / 1000))
    by (now rewrite pre_save_duration, Ha, He).
  repeat split.
  - congruence.
  - exact Hw.
  - exact Hd.
  - rewrite Hw. unfold nonNegative, zero. rewrite ge_ofZ.
    rewrite floor_seconds_nonneg. apply Z.leb_le. lia.
  - rewrite Hd. unfold nonNegative, zero. rewrite ge_ofZ.
    rewrite floor_seconds_nonneg. apply Z.leb_le. lia.
  - rewrite pre_save_cost_total, Hd, Hcost.
    unfold zero at 1. rewrite gt_ofZ, whole_seconds_positive. reflexivity.
Qed.

Lemma answered_call_history_witness :
  status (run [Update ringing 1000; Update answered 6000;
               Update completed 131000; Save] newCall) = completed /\
  duration (timing (run [Update ringing 1000; Update answered 6000;
                         Update completed 131000; Save] newCall))
  = ofZ ((131000 - 6000) / 1000).
Proof.
  pose proof (answered_call_history newCall 1000 6000 131000 completed
                eq_refl ltac:(lia)) as H.
  cbv zeta in H. destruct H as (H1 & _ & H3 & _). split; assumption.
Defined.

(** Without an answer the hook has nothing to do. *)
Lemma pre_save_unanswered (this : Call) :
  answeredAt (timing this) = None -> duration (timing this) = zero ->
  pre_save this = this.
Proof.
  intros Ha Hd. unfold pre_save. rewrite Ha. cbv zeta. rewrite Ha.
  destruct (ringingAt (timing this)); rewrite Hd, gt_zero_zero; reflexivity.
Qed.

(** X3.  A call that is never answered is never charged: whatever other status
    updates and saves follow, its duration stays 0 and its wait time and
    its cost stay what they were. *)
Theorem unanswered_call_not_charged (events : list Event) (this : Call) :
  answeredAt (timing this) = None -> duration (timing this) = zero ->
  forallb (fun e => negb (isAnswer e)) events = true ->
  answeredAt (timing (run events this)) = None /\
  duration (timing (run events this)) = zero /\
  waitTime (timing (run events this)) = waitTime (timing this) /\
  cost (run events this) = cost this.
Proof.
  revert this.
  induction events as [| e events IH]; intros this Ha Hd Hev.
  - repeat split; assumption.
  - cbn [forallb] in Hev. apply andb_true_iff in Hev as [He Hev].
    unfold run. cbn [fold_left]. fold (run events (step this e)).
    destruct e as [newStatus timestamp |].
    + assert (Hstep : answeredAt (timing (step this (Update newStatus timestamp)))
                       = None /\
                     duration (timing (step this (Update newStatus timestamp)))
                       = zero /\
                     waitTime (timing (step this (Update newStatus timestamp)))
                       = waitTime (timing this) /\
                     cost (step this (Update newStatus timestamp)) = cost this).
      { destruct newStatus; try discriminate; cbn; repeat split; assumption. }
      destruct Hstep as (Ha' & Hd' & Hw' & Hc').
      destruct (IH _ Ha' Hd' Hev) as (H1 & H2 & H3 & H4).
      repeat split; congruence.
    + cbn [step]. rewrite (pre_save_unanswered this Ha Hd).
      now apply IH.
Qed.

Lemma unanswered_call_not_charged_witness :
  duration (timing (run missedCallEvents newCall)) = zero /\
  cost (run missedCallEvents newCall) = cost newCall.
Proof.
  destruct (unanswered_call_not_charged missedCallEvents newCall
              eq_refl eq_refl eq_refl) as (_ & H2 & _ & H4).
  split; assumption.
Defined.

Lemma step_keeps_timestamps (this : Call) (e : Event) :
  initiatedAt (timing (step this e)) = initiatedAt (timing this) /\
  implb (isSet (ringingAt (timing this)))
        (isSet (ringingAt (timing (step this e)))) = true /\
  implb (isSet (answeredAt (timing this)))
        (isSet (answeredAt (timing (step this e)))) = true /\
  implb (isSet (endedAt (timing this)))
        (isSet (endedAt (timing (step this e)))) = true.
Proof.
  destruct e as [newStatus timestamp |].
  - destruct newStatus; cbn;
      destruct (ringingAt (timing this)), (answeredAt (timing this)),
               (endedAt (timing this)); repeat split; reflexivity.
  - cbn [step].
    pose proof (pre_save_timestamps this) as (Hi & Hr & Ha & He).
    rewrite Hi, Hr, Ha, He.
    destruct (ringingAt (timing this)), (answeredAt (timing this)),
             (endedAt (timing this)); repeat split; reflexivity.
Qed.

(** X4.  No sequence of status updates and saves changes [initiatedAt] or
    clears a timestamp that is set. *)
Theorem timestamps_never_cleared (events : list Event) (this : Call) :
  initiatedAt (timing (run events this)) = initiatedAt (timing this) /\
  implb (isSet (ringingAt (timing this)))
        (isSet (ringingAt (timing (run events this)))) = true /\
  implb (isSet (answeredAt (timing this)))
        (isSet (answeredAt (timing (run events this)))) = true /\
  implb (isSet (endedAt (timing this)))
        (isSet (endedAt (timing (run events this)))) = true.
Proof.
  revert this.
  induction events as [| e events IH]; intros this.
  - cbn. repeat split; trivial;
      match goal with |- implb ?b ?b = true => now destruct b end.
  - unfold run. cbn [fold_left]. fold (run events (step this e)).
    destruct (IH (step this e)) as (Hi & Hr & Ha & He).
    destruct (step_keeps_timestamps this e) as (Hi' & Hr' & Ha' & He').
    repeat split; [congruence | | |];
      match goal with
      | H1 : implb ?a ?b = true, H2 : implb ?b ?c = true
        |- implb ?a ?c = true =>
          destruct a, b, c; trivial; discriminate
      end.
Qed.

(** *** The qualification score *)

(** X5.  The score reads none of the paths it writes: scoring twice stores and
    returns what scoring once does. *)
Theorem calculateQualificationScore_idempotent (this : Call) :
  calculateQualificationScore (fst (calculateQualificationScore this))
  = calculateQualificationScore this.
Proof.
  rewrite (calculateQualificationScore_points this). cbn [fst].
  rewrite calculateQualificationScore_points.
  destruct this as [st t q c rev [iq qs b]]. reflexivity.
Qed.

(** X6.  A lead is qualified only by a call with a positive revenue that lasted
    a minute or more: without the 30 points of the revenue the other rules
    give 60 at most, and without duration points 65 at most. *)
Theorem qualified_needs_revenue_and_a_minute (this : Call) :
  isQualified (leadData (fst (calculateQualificationScore this))) = true ->
  gt (amount (revenue this)) zero = true /\
  ge (duration (timing this)) (ofZ 60) = true.
Proof.
  rewrite calculateQualificationScore_points. cbn [fst].
  destruct this as [st t q c rev [iq qs b]].
  cbn [set_isQualified set_qualificationScore set_leadData leadData
       isQualified].
  rewrite ge_ofZ.
  unfold qualificationPoints, durationPoints, qualityPoints, revenuePoints,
    budgetPoints.
  cbn [timing quality revenue leadData budget].
  intros H.
  assert (Hb : 0 <= match b with
                    | Some b0 =>
                        if gt (toNumber (budgetMin b0)) (ofZ 1000)
                        then 15 else 0
                    | None => 0
                    end <= 15).
  { destruct b as [b0 |];
      [destruct (gt (toNumber (budgetMin b0)) (ofZ 1000)) |]; lia. }
  revert H Hb.
  generalize (match b with
              | Some b0 =>
                  if gt (toNumber (budgetMin b0)) (ofZ 1000) then 15 else 0
              | None => 0
              end).
  intros pb H Hb. apply Z.leb_le in H.
  split.
  - destruct (gt (amount rev) zero); trivial. exfalso.
    destruct (ge (duration t) (ofZ 300)), (ge (duration t) (ofZ 180)),
             (ge (duration t) (ofZ 60)),
             (ge (toNumber (score q)) (ofZ 4)),
             (ge (toNumber (score q)) (ofZ 3)); lia.
  - destruct (ge (duration t) (ofZ 300)) eqn:H300;
      [now apply (ge_ofZ_weaken _ 300) |].
    destruct (ge (duration t) (ofZ 180)) eqn:H180;
      [now apply (ge_ofZ_weaken _ 180) |].
    destruct (ge (duration t) (ofZ 60)); trivial. exfalso.
    destruct (ge (toNumber (score q)) (ofZ 4)),
             (ge (toNumber (score q)) (ofZ 3)),
             (gt (amount rev) zero); lia.
Qed.

Lemma qualified_needs_revenue_and_a_minute_witness :
  isQualified (leadData (fst (calculateQualificationScore goodLead))) = true /\
  gt (amount (revenue goodLead)) zero = true /\
  ge (duration (timing goodLead)) (ofZ 60) = true.
Proof.
  assert (H : isQualified
                (leadData (fst (calculateQualificationScore goodLead)))
              = true) by (vm_compute; reflexivity).
  split; [exact H |].
  exact (qualified_needs_revenue_and_a_minute goodLead H).
Defined.

(** X7.  A longer call never scores less: with every other path fixed, the
    returned score does not decrease when the duration grows. *)
Theorem score_monotone_in_duration (this : Call) (d1 d2 : Z) :
  d1 <= d2 ->
  le (snd (calculateQualificationScore (set_duration (ofZ d1) this)))
     (snd (calculateQualificationScore (set_duration (ofZ d2) this)))
  = true.
Proof.
  intros Hd. rewrite !calculateQualificationScore_points. cbn [snd].
  rewrite le_ofZ. apply Z.leb_le.
  unfold qualificationPoints.
  cbn [set_duration set_timing timing duration quality revenue leadData].
  unfold durationPoints. rewrite !ge_ofZ.
  destruct (Z.leb_spec 300 d1), (Z.leb_spec 180 d1), (Z.leb_spec 60 d1),
           (Z.leb_spec 300 d2), (Z.leb_spec 180 d2), (Z.leb_spec 60 d2);
    lia.
Qed.

Lemma score_monotone_in_duration_witness :
  le (snd (calculateQualificationScore (set_duration (ofZ 59) newCall)))
     (snd (calculateQualificationScore (set_duration (ofZ 60) newCall)))
  = true.
Proof.
  apply (score_monotone_in_duration newCall 59 60). lia.
Defined.

End CallFacts.

(** ** Order on finite numbers, through the rationals *)

Module JsNumberOrder.
Import JsNumber JsNumberFacts.

(** Unfold the canonical rationals down to [Q]. *)
Ltac to_Q :=
  unfold Qcdiv, Qcmult, Qcinv, Qcminus, Qcplus, Qcopp, Q2Qc;
  cbn [this]; rewrite ?Qred_correct.

Lemma cmp_Fin (x y : Qc) : cmp (Fin x) (Fin y) = Some (x ?= y)%Q.
Proof. reflexivity. Qed.

Lemma gt_Fin_iff (x y : Qc) : gt (Fin x) (Fin y) = true <-> (y < x)%Q.
Proof.
  unfold gt. rewrite cmp_Fin. rewrite Qgt_alt.
  destruct (x ?= y)%Q; split; intros H; try discriminate; reflexivity.
Qed.

Lemma ge_Fin_iff (x y : Qc) : ge (Fin x) (Fin y) = true <-> (y <= x)%Q.
Proof.
  unfold ge. rewrite cmp_Fin. rewrite Qge_alt.
  destruct (x ?= y)%Q; split; intros H; try discriminate; try reflexivity.
  now elim H.
Qed.

Lemma gt_Fin_zero_iff (x : Qc) : gt (Fin x) zero = true <-> (0 < x)%Q.
Proof. unfold zero, ofZ, ofQ. rewrite gt_Fin_iff. to_Q. reflexivity. Qed.

Lemma ge_Fin_ofZ_iff (x : Qc) (z : Z) :
  ge (Fin x) (ofZ z) = true <-> (inject_Z z <= x)%Q.
Proof. unfold ofZ, ofQ. rewrite ge_Fin_iff. to_Q. reflexivity. Qed.

Lemma bool_eq_iff (a b : bool) : (a = true <-> b = true) -> a = b.
Proof. destruct a, b; intros [H1 H2]; auto; symmetry; auto. Qed.

End JsNumberOrder.

(** ** Properties of the virtuals of the Call model *)

Module CallVirtualsFacts.
Import JsNumber JsNumberFacts JsNumberOrder Platform Call CallVirtuals.

Lemma positive_not_zero (n : num) : gt n zero = true -> is_zero_num n = false.
Proof.
  destruct n as [q | | |]; cbn [is_zero_num]; trivial.
  intros H. apply gt_Fin_zero_iff in H.
  unfold is_zero. apply not_true_is_false. intros Hz.
  apply Qeq_bool_eq in Hz. rewrite Hz in H. now apply Qlt_irrefl in H.
Qed.

Lemma minutes_positive (d : num) :
  gt d zero = true -> gt (div d (ofZ 60)) zero = true.
Proof.
  destruct d as [q | | |]; try discriminate.
  - intros H. apply gt_Fin_zero_iff in H.
    unfold div, ofZ, ofQ. rewrite is_zero_ofZ. cbn [Z.eqb].
    apply gt_Fin_zero_iff. to_Q. unfold inject_Z.
    apply Qlt_shift_div_l; [reflexivity | lra].
  - intros _. reflexivity.
Qed.

(** X8.  The virtuals of a call never divide by zero: the ROI tests the total
    cost that it divides by, and the efficiency the duration from which the
    minutes are taken. *)
Theorem call_virtuals_never_divide_by_zero (this : Call) :
  zeroDivisions (roi this) = [] /\ zeroDivisions (efficiency this) = [].
Proof.
  split.
  - unfold roi.
    destruct (gt (total (cost this)) zero) eqn:Hg; [| reflexivity].
    unfold zeroDivisions. cbn [bind divide ret divisions snd app filter].
    now rewrite (positive_not_zero _ Hg).
  - unfold efficiency.
    destruct (gt (duration (timing this)) zero) eqn:Hg; [| reflexivity].
    unfold zeroDivisions. cbn [bind divide ret divisions snd app filter].
    rewrite (positive_not_zero _ (minutes_positive _ Hg)).
    reflexivity.
Qed.

(** X9.  With a finite revenue and a positive finite total cost, the ROI is
    (revenue - cost) / cost * 100; it is positive exactly when the
    profitability is, and never below -100 when the revenue is not
    negative. *)
Theorem call_roi_sign (this : Call) (r t : Qc) :
  amount (revenue this) = Fin r -> total (cost this) = Fin t ->
  (0 < t)%Q ->
  value (roi this) = Fin ((r - t) / t * Q2Qc (inject_Z 100))%Qc /\
  gt (value (roi this)) zero = gt (profitability this) zero /\
  ((0 <= r)%Q -> ge (value (roi this)) (ofZ (-100)) = true).
Proof.
  intros Hr Ht Hpos.
  assert (Hg : gt (total (cost this)) zero = true)
    by (rewrite Ht; now apply gt_Fin_zero_iff).
  assert (Hz : is_zero t = false).
  { apply (positive_not_zero (Fin t)). now rewrite <- Ht. }
  assert (Hv : value (roi this)
               = Fin ((r - t) / t * Q2Qc (inject_Z 100))%Qc).
  { unfold roi. rewrite Hg, Hr, Ht.
    unfold value. cbn [bind divide ret fst sub neg add div].
    rewrite Hz. reflexivity. }
  split; [exact Hv | split].
  - rewrite Hv. unfold profitability. rewrite Hg, Hr, Ht.
    cbn [sub neg add]. apply bool_eq_iff.
    rewrite !gt_Fin_zero_iff. to_Q. unfold inject_Z.
    change ((r + - t) * / t)%Q with ((r + - t) / t)%Q.
    set (x := ((r + - t) / t)%Q).
    split; intros H.
    + assert (H1 : (0 < x)%Q) by lra.
      assert (H2 : (r + - t == x * t)%Q) by (subst x; field; lra).
      rewrite H2. now apply Qmult_lt_0_compat.
    + assert (H1 : (0 < x)%Q)
        by (subst x; apply Qlt_shift_div_l; lra).
      lra.
  - intros Hr0. rewrite Hv. apply ge_Fin_ofZ_iff. to_Q. unfold inject_Z.
    change ((r + - t) * / t)%Q with ((r + - t) / t)%Q.
    set (x := ((r + - t) / t)%Q).
    assert (H1 : (-1 <= x)%Q)
      by (subst x; apply Qle_shift_div_l; lra).
    lra.
Qed.

Lemma call_roi_sign_witness :
  value (roi CallHistory.goodLead)
  = Fin ((Q2Qc (inject_Z 50) - Q2Qc (inject_Z 10)) / Q2Qc (inject_Z 10)
         * Q2Qc (inject_Z 100))%Qc.
Proof.
  exact (proj1 (call_roi_sign CallHistory.goodLead
                  (Q2Qc (inject_Z 50)) (Q2Qc (inject_Z 10))
                  eq_refl eq_refl eq_refl)).
Defined.

End CallVirtualsFacts.

(** ** Further properties of the Campaign model *)

Module CampaignFacts.
Import JsNumber JsNumberFacts JsNumberOrder Platform Campaign CampaignProps
       CampaignSums.

(** *** What a fold leaves alone *)

Lemma updatePerformance_frame (callData : CallData) (this : Campaign) :
  let this' := value (updatePerformance callData this) in
  status this' = status this /\
  schedule this' = schedule this /\
  daily (budget this') = daily (budget this) /\
  total (budget this') = total (budget this) /\
  remaining (budget this') = remaining (budget this) /\
  conversionRate (performance this') = conversionRate (performance this).
Proof.
  unfold updatePerformance.
  destruct (cost callData) as [c |]; [destruct (truthy c) |];
    (destruct (revenue callData) as [r |]; [destruct (truthy r) |]);
    cbn; repeat split; reflexivity.
Qed.

(** X10.  Folding calls never changes the status, the schedule, the daily and
    total budget, the remaining budget or the conversion rate: the
    remaining budget is not kept up to date by the fold, and the amount
    spent is not held against the budget. *)
Theorem foldCalls_frame (calls : list CallData) (this : Campaign) :
  status (foldCalls calls this) = status this /\
  schedule (foldCalls calls this) = schedule this /\
  daily (budget (foldCalls calls this)) = daily (budget this) /\
  total (budget (foldCalls calls this)) = total (budget this) /\
  remaining (budget (foldCalls calls this)) = remaining (budget this) /\
  conversionRate (performance (foldCalls calls this))
  = conversionRate (performance this).
Proof.
  revert this.
  induction calls as [| callData calls IH]; intros this.
  - repeat split; reflexivity.
  - cbn [foldCalls fold_left].
    fold (foldCalls calls (value (updatePerformance callData this))).
    destruct (IH (value (updatePerformance callData this)))
      as (H1 & H2 & H3 & H4 & H5 & H6).
    destruct (updatePerformance_frame callData this)
      as (G1 & G2 & G3 & G4 & G5 & G6).
    repeat split; congruence.
Qed.

(** *** The raw sums *)

Lemma add_zero_r (x : num) : add x zero = x.
Proof.
  destruct x as [q | | |]; try reflexivity.
  unfold zero, ofZ, ofQ. cbn [add]. apply Fin_ext. to_Q.
  unfold inject_Z. ring.
Qed.

Lemma sub_zero_r (x : num) : sub x zero = x.
Proof.
  destruct x as [q | | |]; try reflexivity.
  unfold zero, ofZ, ofQ, sub. cbn [neg add]. apply Fin_ext. to_Q.
  unfold inject_Z. ring.
Qed.

Lemma updatePerformance_spent (callData : CallData) (this : Campaign) :
  spent (budget (value (updatePerformance callData this)))
  = add (spent (budget this)) (orZero (cost callData)).
Proof.
  unfold updatePerformance, orZero.
  destruct (cost callData) as [c |]; [destruct (truthy c) |];
    (destruct (revenue callData) as [r |]; [destruct (truthy r) |]);
    cbn [value fst bind divide ret set_totalCalls set_totalDuration
         set_averageDuration set_costPerCall set_revenuePerCall set_roi
         set_performance set_budget_spent budget spent performance];
    rewrite ?add_zero_r; reflexivity.
Qed.

Lemma foldCalls_raw_sums (calls : list CallData) (this : Campaign) :
  spent (budget (foldCalls calls this))
  = sumBy cost calls (spent (budget this)) /\
  totalDuration (performance (foldCalls calls this))
  = sumBy duration calls (totalDuration (performance this)).
Proof.
  revert this.
  induction calls as [| callData calls IH]; intros this.
  - split; reflexivity.
  - cbn [foldCalls fold_left sumBy].
    fold (foldCalls calls (value (updatePerformance callData this))).
    pose proof (updatePerformance_counters callData this) as (_ & Hd & _).
    cbv zeta in Hd.
    destruct (IH (value (updatePerformance callData this))) as [H1 H2].
    rewrite H1, H2, Hd, updatePerformance_spent. split; reflexivity.
Qed.

(** X11.  Whatever the calls hold, after folding them totalCalls has grown by
    their number, totalDuration by the sum of their durations and
    budget.spent by the sum of their costs, a missing, zero or NaN value
    counting for 0. *)
Theorem foldCalls_sums (calls : list CallData) (this : Campaign) (n : Z) :
  totalCalls (performance this) = ofZ n ->
  totalCalls (performance (foldCalls calls this))
  = ofZ (n + Z.of_nat (List.length calls)) /\
  totalDuration (performance (foldCalls calls this))
  = sumBy duration calls (totalDuration (performance this)) /\
  spent (budget (foldCalls calls this))
  = sumBy cost calls (spent (budget this)).
Proof.
  revert this n.
  induction calls as [| callData calls IH]; intros this n Hn.
  - cbn. rewrite Z.add_0_r. repeat split; trivial.
  - cbn [foldCalls fold_left sumBy List.length].
    fold (foldCalls calls (value (updatePerformance callData this))).
    pose proof (updatePerformance_counters callData this) as (Hc & Hd & _).
    cbv zeta in Hc, Hd. rewrite Hn, add_ofZ in Hc.
    destruct (IH _ _ Hc) as (H1 & H2 & H3).
    rewrite H1, H2, H3, Hd, updatePerformance_spent.
    repeat split; trivial. f_equal. lia.
Qed.

Lemma foldCalls_sums_witness :
  totalCalls (performance (foldCalls revenueThenNone newCampaign))
  = ofZ (0 + Z.of_nat (List.length revenueThenNone)).
Proof.
  exact (proj1 (foldCalls_sums revenueThenNone newCampaign 0 eq_refl)).
Defined.

(** *** Reachable campaigns *)

Lemma save_frame (this : Campaign) :
  status (save this) = status this /\
  performance (save this) = performance this /\
  schedule (save this) = schedule this /\
  daily (budget (save this)) = daily (budget this) /\
  total (budget (save this)) = total (budget this) /\
  spent (budget (save this)) = spent (budget this).
Proof.
  unfold save, pre_save.
  destruct (isModified_budget_spent this); repeat split; reflexivity.
Qed.

(** X12.  On every campaign reached from a new one by folds and saves,
    totalCalls is the number [n] of calls folded so far and the conversion
    rate is still 0; before the first call the counters are the defaults
    and nothing is spent, and from the first call on averageDuration =
    totalDuration / totalCalls and the test [totalCalls > 0] of the
    efficiency succeeds. *)
Theorem reachable_counters (this : Campaign) :
  reachable this ->
  exists n : Z,
    0 <= n /\
    totalCalls (performance this) = ofZ n /\
    conversionRate (performance this) = zero /\
    gt (totalCalls (performance this)) zero = (0 <? n) /\
    (n = 0 ->
     performance this = defaultPerformance /\ spent (budget this) = zero) /\
    (0 < n ->
     averageDuration (performance this)
     = div (totalDuration (performance this)) (ofZ n)).
Proof.
  induction 1 as [daily total schedule
                 | callData this Hr (n & Hn & Hc & Hv & Hg & H0 & Hpos)
                 | this Hr (n & Hn & Hc & Hv & Hg & H0 & Hpos)].
  - exists 0. repeat split; try reflexivity; lia.
  - exists (n + 1).
    pose proof (updatePerformance_counters callData this) as (Hc' & _ & Ha).
    pose proof (updatePerformance_frame callData this)
      as (_ & _ & _ & _ & _ & Hv').
    cbv zeta in Hc', Ha, Hv'. rewrite Hc, add_ofZ in Hc'.
    repeat split.
    + lia.
    + exact Hc'.
    + congruence.
    + rewrite Hc'. unfold zero. now rewrite gt_ofZ.
    + lia.
    + lia.
    + intros _. now rewrite Ha, Hc'.
  - exists n.
    destruct (save_frame this) as (_ & Hp & _ & _ & _ & Hs).
    rewrite Hp, Hs. repeat split; trivial; now apply H0.
Qed.

Lemma reachable_counters_witness :
  exists n : Z,
    0 <= n /\ totalCalls (performance after1Revenue) = ofZ n /\
    conversionRate (performance after1Revenue) = zero.
Proof.
  assert (Hr : reachable after1Revenue)
    by (unfold after1Revenue, newCampaign;
        apply reach_updatePerformance, reach_create).
  destruct (reachable_counters after1Revenue Hr) as (n & H1 & H2 & H3 & _).
  exists n. repeat split; assumption.
Defined.

(** *** The remaining budget across folds and saves *)

Lemma strictEq_eq (a b : num) : strictEq a b = true -> a = b.
Proof.
  destruct a as [x | | |], b as [y | | |]; try discriminate; trivial.
  unfold strictEq. rewrite cmp_Fin. intros H. f_equal.
  apply Qc_is_canon. apply Qeq_alt.
  destruct (x ?= y)%Q; trivial; discriminate.
Qed.

Lemma updatePerformance_unmodified (callData : CallData) (this : Campaign) :
  modified_budget_spent (value (updatePerformance callData this)) = false ->
  modified_budget_spent this = false /\
  spent (budget (value (updatePerformance callData this)))
  = spent (budget this).
Proof.
  unfold updatePerformance.
  destruct (cost callData) as [c |]; [destruct (truthy c) |];
    (destruct (revenue callData) as [r |]; [destruct (truthy r) |]);
    cbn [value fst bind divide ret set_totalCalls set_totalDuration
         set_averageDuration set_costPerCall set_revenuePerCall set_roi
         set_performance set_budget_spent budget spent performance
         modified_budget_spent];
    intros H; try (split; [exact H | reflexivity]);
    apply orb_false_iff in H as [H1 H2];
    apply negb_false_iff in H2; apply strictEq_eq in H2;
    (split; [exact H1 | now symmetry]).
Qed.

Lemma foldCalls_unmodified (calls : list CallData) (this : Campaign) :
  modified_budget_spent (foldCalls calls this) = false ->
  modified_budget_spent this = false /\
  spent (budget (foldCalls calls this)) = spent (budget this).
Proof.
  revert this.
  induction calls as [| callData calls IH]; intros this H.
  - split; [exact H | reflexivity].
  - cbn [foldCalls fold_left] in *.
    fold (foldCalls calls (value (updatePerformance callData this))) in *.
    destruct (IH _ H) as [H1 H2].
    destruct (updatePerformance_unmodified _ _ H1) as [H3 H4].
    split; [exact H3 | congruence].
Qed.

Lemma foldCalls_budget_caps (calls : list CallData) (this : Campaign) :
  total (budget (foldCalls calls this)) = total (budget this) /\
  remaining (budget (foldCalls calls this)) = remaining (budget this).
Proof.
  revert this.
  induction calls as [| callData calls IH]; intros this.
  - split; reflexivity.
  - cbn [foldCalls fold_left].
    fold (foldCalls calls (value (updatePerformance callData this))).
    destruct (IH (value (updatePerformance callData this))) as [H1 H2].
    destruct (updatePerformance_frame callData this)
      as (_ & _ & _ & G1 & G2 & _).
    split; congruence.
Qed.

(** A new campaign is settled, whatever its budget. *)
Lemma create_settled (daily total : num) (schedule : Schedule) :
  settled (create daily total schedule).
Proof.
  split; [| reflexivity]. cbn. now rewrite sub_zero_r.
Qed.

(** X13.  Saving after folding any calls settles the campaign again: when the
    remaining budget was total - spent before the calls, it is total -
    spent after the save, with the amount spent that the calls left, and
    no change is pending. *)
Theorem save_after_folds_settles (calls : list CallData) (this : Campaign) :
  settled this ->
  settled (save (foldCalls calls this)) /\
  spent (budget (save (foldCalls calls this)))
  = sumBy cost calls (spent (budget this)).
Proof.
  intros [Hrem Hmod].
  destruct (foldCalls_budget_caps calls this) as [Ht Hr].
  destruct (save_frame (foldCalls calls this)) as (_ & _ & _ & _ & Ht' & Hs').
  assert (Hsum : spent (budget (foldCalls calls this))
                 = sumBy cost calls (spent (budget this))).
  { destruct (foldCalls_raw_sums calls this) as [Hx _]. exact Hx. }
  split; [| now rewrite Hs'].
  split; [| reflexivity].
  rewrite Ht', Hs'.
  unfold save, pre_save, isModified_budget_spent.
  destruct (modified_budget_spent (foldCalls calls this)) eqn:Hm.
  - reflexivity.
  - cbn [budget remaining].
    destruct (foldCalls_unmodified calls this Hm) as [_ Hsp].
    now rewrite Hr, Hrem, Ht, Hsp.
Qed.

Lemma save_after_folds_settles_witness :
  settled newCampaign /\ settled (save after3Costs).
Proof.
  split; [apply create_settled |].
  exact (proj1 (save_after_folds_settles
                  [callOfCost 20; callOfCost 20; callOfCost 20] newCampaign
                  (create_settled _ _ _))).
Defined.

(** *** Averages *)






(** X16.  With a positive finite total budget and a finite amount spent, the
    budget utilization is spent / total * 100, and it reaches 100 exactly
    when the amount spent reaches the total budget; nothing caps it. *)
Theorem budgetUtilization_full (this : Campaign) (s t : Qc) :
  spent (budget this) = Fin s -> total (budget this) = Fin t -> (0 < t)%Q ->
  value (budgetUtilization this) = Fin (s / t * Q2Qc (inject_Z 100))%Qc /\
  ge (value (budgetUtilization this)) (ofZ 100)
  = ge (spent (budget this)) (total (budget this)).
Proof.
  intros Hs Ht Hpos.
  assert (Hg : gt (total (budget this)) zero = true)
    by (rewrite Ht; now apply gt_Fin_zero_iff).
  assert (Hz : is_zero t = false).
  { apply (gt_zero_not_zero (Fin t)). now rewrite <- Ht. }
  assert (Hv : value (budgetUtilization this)
               = Fin (s / t * Q2Qc (inject_Z 100))%Qc).
  { unfold budgetUtilization. rewrite Hg, Hs, Ht.
    unfold value. cbn [bind divide ret fst div]. rewrite Hz. reflexivity. }
  split; [exact Hv |].
  rewrite Hv, Hs, Ht. apply bool_eq_iff.
  rewrite ge_Fin_ofZ_iff, ge_Fin_iff. to_Q. unfold inject_Z.
  change (s * / t)%Q with (s / t)%Q. set (x := (s / t)%Q).
  assert (Hx : (s == x * t)%Q) by (subst x; field; lra).
  split; intros H.
  - assert (H1 : (1 <= x)%Q) by lra.
    assert (H2 : (0 <= (x - 1) * t)%Q)
      by (apply Qmult_le_0_compat; lra).
    lra.
  - assert (H1 : (1 <= x)%Q).
    { subst x. apply Qle_shift_div_l; lra. }
    lra.
Qed.

Lemma budgetUtilization_full_witness :
  value (budgetUtilization after3Costs)
  = Fin (Q2Qc (inject_Z 60) / Q2Qc (inject_Z 1000) * Q2Qc (inject_Z 100))%Qc.
Proof.
  refine (proj1 (budgetUtilization_full after3Costs
                   (Q2Qc (inject_Z 60)) (Q2Qc (inject_Z 1000)) _ eq_refl
                   eq_refl)).
  apply eqb_eq. vm_compute. reflexivity.
Defined.

(** *** The length of a campaign *)

Lemma ceil_div_ofZ (a b : Z) :
  b <> 0 -> ceil (div (ofZ a) (ofZ b)) = ofZ (- ((- a) / b)).
Proof.
  intros Hb. unfold div, ofZ at 1 2, ofQ.
  rewrite is_zero_ofZ. apply Z.eqb_neq in Hb. rewrite Hb.
  unfold ceil, Qceiling. do 2 f_equal.
  rewrite Zdiv_Qdiv. apply Qfloor_comp.
  to_Q. rewrite inject_Z_opp. unfold Qdiv. ring.
Qed.

(** X18.  The duration of a campaign is the whole number of days [d] that covers
    the time from the start date to the end date: (d - 1) days < end - start
    <= d days.  An end date that is not after the start date gives zero or
    a negative number of days. *)
Theorem campaign_duration_days (this : Campaign) :
  exists d : Z,
    CampaignVirtuals.duration this = ofZ d /\
    (d - 1) * msPerDay
    < endDate (schedule this) - startDate (schedule this)
    <= d * msPerDay.
Proof.
  exists (- ((- (endDate (schedule this) - startDate (schedule this)))
             / msPerDay)).
  split.
  - unfold CampaignVirtuals.duration. rewrite sub_ofZ.
    change (1000 * 60 * 60 * 24) with msPerDay.
    apply ceil_div_ofZ. discriminate.
  - set (span := endDate (schedule this) - startDate (schedule this)).
    pose proof (Z.div_mod (- span) msPerDay ltac:(discriminate)) as Hdiv.
    pose proof (Z.mod_pos_bound (- span) msPerDay eq_refl) as Hmod.
    unfold msPerDay in *. lia.
Qed.

End CampaignFacts.

(** ** Properties of the call statistics *)

Module CallStatsFacts.
Import JsNumber JsNumberFacts Call CallStats.

(** The condition that [getStats] builds is the one the range asks for. *)
Lemma matches_buildMatch (user : string) (dateRange : DateRange)
  (doc : StoredCall) :
  matches (buildMatch user dateRange) doc
  = String.eqb (userId doc) user && inRange dateRange (createdAt doc).
Proof.
  unfold buildMatch, matches, inRange, satisfies.
  destruct (range_start dateRange) as [s |],
           (range_end dateRange) as [e |];
    cbn; rewrite ?andb_true_r; reflexivity.
Qed.

Lemma sumOf_from (f : StoredCall -> num) (docs : list StoredCall) (k : Z)
  (count : StoredCall -> Z) :
  (forall doc, f doc = ofZ (count doc)) ->
  fold_left (fun acc doc => add acc (f doc)) docs (ofZ k)
  = ofZ (k + fold_right (fun doc n => count doc + n) 0 docs).
Proof.
  intros Hf. revert k.
  induction docs as [| doc docs IH]; intros k; cbn [fold_left fold_right].
  - now rewrite Z.add_0_r.
  - rewrite Hf, add_ofZ, IH. f_equal. lia.
Qed.

Lemma sumOf_ones (docs : list StoredCall) :
  sumOf (fun _ => ofZ 1) docs = ofZ (Z.of_nat (List.length docs)).
Proof.
  unfold sumOf, zero.
  rewrite (sumOf_from _ docs 0 (fun _ => 1)) by reflexivity.
  f_equal. rewrite Z.add_0_l.
  induction docs as [| doc docs IH]; cbn [fold_right List.length].
  - reflexivity.
  - rewrite IH. lia.
Qed.

Lemma sumOf_qualified (docs : list StoredCall) :
  sumOf (fun doc => if isQualified (leadData (document doc))
                    then ofZ 1 else ofZ 0) docs
  = ofZ (Z.of_nat (List.length (qualifiedOnes docs))).
Proof.
  unfold sumOf, zero.
  rewrite (sumOf_from _ docs 0
             (fun doc => if isQualified (leadData (document doc))
                         then 1 else 0)).
  - f_equal. rewrite Z.add_0_l. unfold qualifiedOnes.
    induction docs as [| doc docs IH]; cbn [fold_right filter].
    + reflexivity.
    + rewrite IH.
      destruct (isQualified (leadData (document doc)));
        cbn [List.length]; lia.
  - intros doc. now destruct (isQualified (leadData (document doc))).
Qed.

(** X19.  [getStats] counts exactly the stored calls of the user created in the
    range (either bound may be missing).  When there is none the result is
    the empty list, not a group of zeros; otherwise it is one group in
    which totalCalls is the number of those calls, qualifiedLeads the
    number of the qualified ones among them, at most totalCalls, and
    averageDuration is totalDuration / totalCalls. *)
Theorem getStats_counts (collection : list StoredCall) (user : string)
  (dateRange : DateRange) :
  let counted := ofUserInRange collection user dateRange in
  match counted with
  | [] => getStats collection user dateRange = []
  | _ :: _ =>
      exists g : Stats,
        getStats collection user dateRange = [g] /\
        totalCalls g = ofZ (Z.of_nat (List.length counted)) /\
        qualifiedLeads g
        = ofZ (Z.of_nat (List.length (qualifiedOnes counted))) /\
        (List.length (qualifiedOnes counted) <= List.length counted)%nat /\
        averageDuration g = div (totalDuration g) (totalCalls g)
  end.
Proof.
  cbv zeta.
  assert (Hf : filter (matches (buildMatch user dateRange)) collection
               = ofUserInRange collection user dateRange).
  { unfold ofUserInRange. apply filter_ext. intros doc.
    rewrite matches_buildMatch. reflexivity. }
  unfold getStats. rewrite Hf.
  destruct (ofUserInRange collection user dateRange) as [| doc docs] eqn:Hc.
  - reflexivity.
  - eexists. split; [reflexivity |].
    cbn [totalCalls qualifiedLeads averageDuration totalDuration].
    rewrite sumOf_ones, sumOf_qualified.
    repeat split.
    unfold qualifiedOnes. apply filter_length_le.
Qed.

End CallStatsFacts.

(** ** Properties of the API client *)

Module ApiFacts.
Import Api.

Local Open Scope string_scope.

Lemma getHeader_setHeader (name value : string) (hs : list (string * string)) :
  getHeader name (setHeader name value hs) = Some value.
Proof.
  induction hs as [| [n v] hs IH]; cbn [setHeader getHeader].
  - now rewrite String.eqb_refl.
  - destruct (String.eqb n name) eqn:Hn; cbn [getHeader].
    + now rewrite String.eqb_refl.
    + now rewrite Hn.
Qed.

Lemma getHeader_setHeader_other (name other value : string)
  (hs : list (string * string)) :
  String.eqb other name = false ->
  getHeader other (setHeader name value hs) = getHeader other hs.
Proof.
  intros Hne.
  assert (Hne' : String.eqb name other = false)
    by (now rewrite String.eqb_sym).
  induction hs as [| [n v] hs IH]; cbn [setHeader getHeader].
  - now rewrite Hne'.
  - destruct (String.eqb n name) eqn:Hn; cbn [getHeader].
    + apply String.eqb_eq in Hn. subst n. now rewrite Hne'.
    + now rewrite IH.
Qed.

Lemma setHeader_idempotent (name value : string)
  (hs : list (string * string)) :
  setHeader name value (setHeader name value hs) = setHeader name value hs.
Proof.
  induction hs as [| [n v] hs IH]; cbn [setHeader].
  - now rewrite String.eqb_refl.
  - destruct (String.eqb n name) eqn:Hn; cbn [setHeader].
    + now rewrite String.eqb_refl.
    + now rewrite Hn, IH.
Qed.

(** X20.  The request interceptor sets the Authorization header to the bearer
    token exactly when the stored token is a non-empty string, replacing a
    header of that name that the request already had; it leaves the URL and
    every other header alone, and applying it twice changes nothing
    more. *)
Theorem requestInterceptor_authorization (browser : Browser)
  (config : Config) :
  let sent := requestInterceptor browser config in
  getHeader "Authorization" (headers sent)
  = match token browser with
    | Some (String c t) => Some ("Bearer " ++ String c t)
    | _ => getHeader "Authorization" (headers config)
    end /\
  (forall other : string,
     String.eqb other "Authorization" = false ->
     getHeader other (headers sent) = getHeader other (headers config)) /\
  url sent = url config /\
  requestInterceptor browser sent = sent.
Proof.
  cbv zeta. unfold requestInterceptor.
  destruct (token browser) as [[| c t] |]; cbn [truthyString].
  - repeat split; reflexivity.
  - cbn [headers url]. repeat split.
    + apply getHeader_setHeader.
    + intros other Hne. now apply getHeader_setHeader_other.
    + now rewrite setHeader_idempotent.
  - repeat split; reflexivity.
Qed.

Lemma statusIs_exclusive (error : AxiosError) :
  statusIs (Z.eqb 403) error && statusIs (Z.leb 500) error = false.
Proof.
  unfold statusIs. destruct (response error) as [r |]; [| reflexivity].
  destruct (Z.eqb_spec 403 (status r)) as [<- | H]; reflexivity.
Qed.

(** X21.  An error response with status 401 removes the stored token and sends
    the browser to the login page, so that the request interceptor adds
    nothing to the requests that follow; any other error leaves the token
    and the location as they were. *)
Theorem session_after_response_error (browser : Browser) (error : AxiosError) :
  let browser' := fst (responseErrorInterceptor browser error) in
  if statusIs (Z.eqb 401) error then
    token browser' = None /\ href browser' = "/login" /\
    forall config : Config, requestInterceptor browser' config = config
  else
    token browser' = token browser /\ href browser' = href browser.
Proof.
  cbv zeta. unfold responseErrorInterceptor, logMessage.
  destruct (statusIs (Z.eqb 401) error);
    destruct (statusIs (Z.eqb 403) error);
    destruct (statusIs (Z.leb 500) error);
    destruct (response error) as [[st [d |]] |];
    cbn; repeat split; reflexivity.
Qed.

(** X22.  The promise is always rejected, and with the error the interceptor was
    given; the one exception is a 403 or 5xx response without a body, where
    reading the message throws and nothing is logged.  At most one line is
    logged for an error. *)
Theorem response_error_rejection (browser : Browser) (error : AxiosError) :
  let (browser', rejection) := responseErrorInterceptor browser error in
  rejection
  = match response error with
    | Some r =>
        match data r with
        | Some _ => RejectedWith error
        | None =>
            if (403 =? status r)%Z || (500 <=? status r)%Z
            then TypeErrorThrown else RejectedWith error
        end
    | None => RejectedWith error
    end /\
  (rejection = TypeErrorThrown -> console browser' = console browser) /\
  (List.length (console browser') <= S (List.length (console browser)))%nat.
Proof.
  pose proof (statusIs_exclusive error) as Hex.
  unfold responseErrorInterceptor, logMessage, statusIs in *.
  destruct (response error) as [[st [d |]] |]; cbn [status data] in *.
  - destruct (401 =? st)%Z, (403 =? st)%Z, (500 <=? st)%Z;
      try discriminate; cbn [console];
      repeat split; try discriminate;
      rewrite ?length_app; cbn [List.length]; lia.
  - destruct (401 =? st)%Z, (403 =? st)%Z, (500 <=? st)%Z;
      try discriminate; cbn [console orb];
      repeat split; trivial; try lia.
  - cbn. repeat split; trivial; lia.
Qed.

End ApiFacts.

(** ** Properties of the routes *)

Module AppFacts.
Import App.

Local Open Scope string_scope.

(** X23.  Following a redirect always ends on a page: a guard redirects only to
    the path of a route of the table, and the element of that route is then
    its page, so that the two guards never send a visitor back and
    forth. *)
Theorem redirects_land (auth : Auth) (route : Route) :
  In route routes ->
  match element auth route with
  | Navigate to =>
      exists target : Route,
        staticRoute to = Some target /\
        element auth target = Render (page target)
  | _ => True
  end.
Proof.
  intros Hin. destruct auth as [[u |] [|]];
    repeat (destruct Hin as [<- | Hin]; [cbn; trivial |]);
    try contradiction.
  all: eexists; split; reflexivity.
Qed.

Lemma redirects_land_witness :
  exists target : Route,
    staticRoute "/login" = Some target /\
    element (mkAuth None false) target = Render (page target).
Proof.
  exact (redirects_land (mkAuth None false)
           (mkRoute "/billing" Protected BillingPage)
           ltac:(cbn; tauto)).
Defined.

(** X24.  A visitor who is not logged in is never shown a page of the
    application: the only pages that the routes render without a user are
    the landing page, the login and register pages and the not-found
    page. *)
Theorem pages_without_user (auth : Auth) (route : Route) (shown : Page) :
  In route routes -> user auth = None ->
  element auth route = Render shown ->
  In shown [LandingPage; LoginPage; RegisterPage; NotFoundPage].
Proof.
  intros Hin Hu. destruct auth as [u [|]]; cbn in Hu; subst u;
    repeat (destruct Hin as [<- | Hin];
            [cbn; intros H; inversion H; tauto |]);
    contradiction.
Qed.

Lemma pages_without_user_witness :
  In LoginPage [LandingPage; LoginPage; RegisterPage; NotFoundPage].
Proof.
  exact (pages_without_user (mkAuth None false)
           (mkRoute "/login" Public LoginPage) LoginPage
           ltac:(cbn; tauto) eq_refl eq_refl).
Defined.

End AppFacts.
